(** * Rockpool: functional-module contract and graph design-rule checking

    Shallow embedding of the two protocols documented in the Rockpool
    notebooks:
    - the graph-mapping notebook (design rule checks [check_drc] and the
      example conversion rule [MyNeurons._convert_from]);
    - the functional API of [JaxModule] ([set_attributes],
      [reset_state], [tree_flatten]/[tree_unflatten]) and the graph
      registration method [GraphModule.add_input], whose code lives in the
      Rockpool library itself and is modelled from the specification. *)

From Stdlib Require Import String ZArith QArith.
From stdpp Require Import base gmap list strings pretty.

#[local] Set Warnings "-register-all".

(* ================================================================= *)
(** ** Python exceptions and a small state/exception monad *)

(** A raised Python exception: its class hierarchy (the MRO, most derived
    class first, so [type(e).__name__] is the head), its [args], and the
    implicit [__context__] set when it is raised inside an [except]
    block. *)
Inductive PyExc : Type :=
  | MkExc (exc_mro : list string) (exc_args : list string)
          (exc_context : option PyExc).

Definition exc_mro (e : PyExc) : list string :=
  match e with MkExc m _ _ => m end.
Definition exc_args (e : PyExc) : list string :=
  match e with MkExc _ a _ => a end.
Definition exc_context (e : PyExc) : option PyExc :=
  match e with MkExc _ _ c => c end.

(** [isinstance(e, cls)] *)
Definition isinstance (e : PyExc) (cls : string) : bool :=
  existsb (String.eqb cls) (exc_mro e).

Definition ValueError_mro : list string :=
  ["ValueError"; "Exception"; "BaseException"; "object"].

(** [class DRCError(ValueError): pass] *)
Definition DRCError_mro : list string := "DRCError" :: ValueError_mro.

Definition ValueError (msg : string) : PyExc := MkExc ValueError_mro [msg] None.
Definition DRCError (msg : string) : PyExc := MkExc DRCError_mro [msg] None.

(** Python code that threads a state [S] and may raise. *)
Definition PyM (S A : Type) : Type := S -> S * (PyExc + A).

Definition ret {S A} (a : A) : PyM S A := fun s => (s, inr a).
Definition raise {S A} (e : PyExc) : PyM S A := fun s => (s, inl e).
Definition bind {S A B} (m : PyM S A) (k : A -> PyM S B) : PyM S B :=
  fun s => match m s with
           | (s', inl e) => (s', inl e)
           | (s', inr a) => k a s'
           end.
Definition get {S} : PyM S S := fun s => (s, inr s).
Definition put {S} (s : S) : PyM S unit := fun _ => (s, inr tt).

#[global] Instance PyM_ret {S} : MRet (PyM S) := fun A a => ret a.
#[global] Instance PyM_bind {S} : MBind (PyM S) := fun A B k m => bind m k.

(** A raise inside a handler records the handled exception as the new
    exception's [__context__]. *)
Definition set_context (handled e : PyExc) : PyExc :=
  match e with MkExc m a _ => MkExc m a (Some handled) end.

(** [try: body  except cls as e: handler(e)]; an exception that is not an
    instance of [cls] propagates unchanged. *)
Definition try_except {S A} (cls : string) (body : PyM S A)
    (handler : PyExc -> PyM S A) : PyM S A :=
  fun s => match body s with
           | (s', inl e) =>
               if isinstance e cls then
                 match handler e s' with
                 | (s'', inl e') => (s'', inl (set_context e e'))
                 | r => r
                 end
               else (s', inl e)
           | r => r
           end.

(* ================================================================= *)
(** ** Design rule checks (graph-mapping notebook, cell 5) *)

Module Drc.

(** A design rule: a Python function of the graph, called by its
    [__name__]; it returns [None] or raises. The state of the check is the
    log of the rules invoked so far, in order. *)
Record DesignRule (G : Type) : Type := MkRule {
  dr_name : string;
  dr_body : G -> PyExc + unit
}.
Arguments MkRule {G}.
Arguments dr_name {G}.
Arguments dr_body {G}.

Definition nl : string := String (Ascii.ascii_of_nat 10) EmptyString.

(** [dr(graph)]: the call is recorded, then the rule's body runs. *)
Definition call_rule {G} (dr : DesignRule G) (graph : G)
    : PyM (list string) unit :=
  fun log => (log ++ [dr_name dr], dr_body dr graph).

(** [f"Design rule {dr.__name__} triggered an error:\n"
       + "".join([f"{msg}" for msg in e.args])] *)
Definition drc_message (name : string) (args : list string) : string :=
  ("Design rule " ++ name ++ " triggered an error:" ++ nl
   ++ String.concat "" args)%string.

(** [check_drc(graph, design_rules)] *)
Fixpoint check_drc {G} (graph : G) (design_rules : list (DesignRule G))
    : PyM (list string) unit :=
  match design_rules with
  | [] => ret tt
  | dr :: rest =>
      try_except "DRCError" (call_rule dr graph)
        (fun e => raise (DRCError (drc_message (dr_name dr) (exc_args e))))
      ;; check_drc graph rest
  end.

(** A rule passes on [graph] when its call returns normally. *)
Definition passes {G} (graph : G) (dr : DesignRule G) : Prop :=
  dr_body dr graph = inr tt.

(** The notebook's third rule, over the number of input nodes of the
    graph: [le_16_input_channels]. *)
Definition le_16_input_channels : DesignRule nat :=
  MkRule "le_16_input_channels" (fun n_inputs =>
    if Nat.ltb 16 n_inputs then
      inl (DRCError ("Xylo only supports up to 16 input channels. The network requires "
                     ++ pretty (N.of_nat n_inputs) ++ " input channels.")%string)
    else inr tt).

End Drc.

(* ================================================================= *)
(** ** Graph modules and nodes (graph-mapping notebook) *)

Module Graph.

(** [GraphNode]: the modules it comes from and goes to, by identity. *)
Record GraphNode : Type := MkNode {
  source_modules : list nat;
  sink_modules : list nat
}.

(** A [GraphModule] object: its class hierarchy ([type(mod).__name__]
    first), its ordered input and output nodes and its name, plus the
    dataclass fields the notebook's conversion rule reads or writes:
    [dt] and [threshold] of a [LIFNeuronWithSynsRealValue], [thresholds]
    of [MyNeurons]. Floats are rationals. *)
Record GraphModule : Type := MkModule {
  gm_mro : list string;
  input_nodes : list nat;
  output_nodes : list nat;
  name : string;
  dt : option Q;
  threshold : list Q;
  thresholds : list Z
}.

(** The Python heap of graph objects. Dataclasses declared with
    [eq = False] compare by identity, so objects are named by their id. *)
Record Store : Type := MkStore {
  modules : gmap nat GraphModule;
  nodes : gmap nat GraphNode;
  next_id : nat
}.

Definition type_name (m : GraphModule) : string := default "" (head (gm_mro m)).

(** A class object, given by its MRO; [cls.__name__] is its head. *)
Definition cls_name (cls : list string) : string := default "" (head cls).

(** [isinstance(mod, cls)] *)
Definition isinstance_mod (m : GraphModule) (cls : list string) : bool :=
  existsb (String.eqb (cls_name cls)) (gm_mro m).

Definition NameError (x : string) : PyExc :=
  MkExc ["NameError"; "Exception"; "BaseException"; "object"]
        [("name '" ++ x ++ "' is not defined")%string] None.

(** A dangling reference cannot occur in Python; the model raises. *)
Definition ReferenceError : PyExc :=
  MkExc ["ReferenceError"; "Exception"; "BaseException"; "object"] [] None.

Definition get_module (i : nat) : PyM Store GraphModule :=
  fun st => match modules st !! i with
            | Some m => (st, inr m)
            | None => (st, inl ReferenceError)
            end.

Definition get_node (i : nat) : PyM Store GraphNode :=
  fun st => match nodes st !! i with
            | Some n => (st, inr n)
            | None => (st, inl ReferenceError)
            end.

Definition set_module (i : nat) (m : GraphModule) : PyM Store unit :=
  fun st => (MkStore (<[i := m]> (modules st)) (nodes st) (next_id st), inr tt).

Definition set_node (i : nat) (n : GraphNode) : PyM Store unit :=
  fun st => (MkStore (modules st) (<[i := n]> (nodes st)) (next_id st), inr tt).

(** Resolve a global name of the notebook: [globals] lists the names bound
    by its cells. *)
Definition load_global (globals : list string) (x : string) : PyM Store unit :=
  if bool_decide (x ∈ globals) then mret tt else raise (NameError x).

(** Names bound by the cells of the graph-mapping notebook before the
    conversion rule is called: [warnings], [rg], [dataclass],
    [MyGraphModule], [List], [MyNeurons]. *)
Definition notebook_globals : list string :=
  ["warnings"; "rg"; "dataclass"; "MyGraphModule"; "List"; "MyNeurons"].

(** Modelled from the spec: [GraphNode.add_sink], which is not part of the
    repository snapshot; "records [module] as a sink of [node]",
    idempotently. *)
Definition add_sink (n m : nat) : PyM Store unit :=
  node ← get_node n;
  if bool_decide (m ∈ sink_modules node) then mret tt
  else set_node n (MkNode (source_modules node) (sink_modules node ++ [m])).

(** Modelled from the spec: [GraphNode.add_source], the source-side twin
    of [add_sink]. *)
Definition add_source (n m : nat) : PyM Store unit :=
  node ← get_node n;
  if bool_decide (m ∈ source_modules node) then mret tt
  else set_node n (MkNode (source_modules node ++ [m]) (sink_modules node)).

(** Modelled from the spec: [GraphModule.add_input], which is not part of
    the repository snapshot; it "registers [node] as belonging to
    [module]'s ordered input list and records [module] as a sink of
    [node]. Idempotent: adding the same node twice is a no-op." *)
Definition add_input (m n : nat) : PyM Store unit :=
  gm ← get_module m;
  (if bool_decide (n ∈ input_nodes gm) then mret tt
   else set_module m (MkModule (gm_mro gm) (input_nodes gm ++ [n])
                        (output_nodes gm) (name gm) (dt gm) (threshold gm)
                        (thresholds gm)));;
  add_sink n m.

(** Modelled from the spec: [GraphModule.add_output], the output-side twin
    of [add_input]. *)
Definition add_output (m n : nat) : PyM Store unit :=
  gm ← get_module m;
  (if bool_decide (n ∈ output_nodes gm) then mret tt
   else set_module m (MkModule (gm_mro gm) (input_nodes gm)
                        (output_nodes gm ++ [n]) (name gm) (dt gm)
                        (threshold gm) (thresholds gm)));;
  add_source n m.

(** A fresh object id. *)
Definition alloc_id : PyM Store nat :=
  fun st => (MkStore (modules st) (nodes st) (S (next_id st)), inr (next_id st)).

Fixpoint new_nodes (k : nat) : PyM Store (list nat) :=
  match k with
  | 0 => mret []
  | S k' => i ← alloc_id; set_node i (MkNode [] []);; is ← new_nodes k'; mret (i :: is)
  end.

Fixpoint mapM_ {A} (f : A -> PyM Store unit) (l : list A) : PyM Store unit :=
  match l with
  | [] => mret tt
  | x :: l' => f x;; mapM_ f l'
  end.

(** Modelled from the spec: [GraphModule._factory(size_in, size_out, name,
    *fields)], described in the notebook as the "factory method to
    instantiate an object with self-created input and output nodes";
    [__post_init__] connects the new nodes to the new module. *)
Definition _factory (cls : list string) (size_in size_out : nat) (nm : string)
    (ths : list Z) (dt_ : option Q) : PyM Store nat :=
  ins ← new_nodes size_in;
  outs ← new_nodes size_out;
  i ← alloc_id;
  set_module i (MkModule cls ins outs nm dt_ [] ths);;
  mapM_ (fun n => add_sink n i) ins;;
  mapM_ (fun n => add_source n i) outs;;
  mret i.

(** [np.round(x)] on a finite float (a rational; every finite float is
    one): round half to even, exactly. *)
Definition round_half_even (q : Q) : Z :=
  let f := Z.div (Qnum q) (Zpos (Qden q)) in
  let r := Z.modulo (Qnum q) (Zpos (Qden q)) in
  match Z.compare (2 * r) (Zpos (Qden q)) with
  | Lt => f
  | Gt => f + 1
  | Eq => if Z.even f then f else f + 1
  end.

(** [.astype(int)]: the C cast of a float to int64. It is exact within
    the int64 range; out of range (and for NaN or an infinity, which a
    threshold given as a rational cannot be) the C conversion is
    undefined, and on x86-64 it yields the "integer indefinite" value
    -2^63, which is what the model returns. *)
Definition int64_min : Z := (- 2 ^ 63)%Z.
Definition int64_max : Z := (2 ^ 63 - 1)%Z.

Definition astype_int64 (z : Z) : Z :=
  if (int64_min <=? z)%Z && (z <=? int64_max)%Z then z else int64_min.

(** [np.round(np.array(x)).astype(int)], element by element. *)
Definition np_round_astype_int (q : Q) : Z := astype_int64 (round_half_even q).

Definition MyNeurons : list string :=
  ["MyNeurons"; "GenericNeurons"; "GraphModule"; "object"].

Section Conversion.

(** [rg.replace_module(target, replacement)] belongs to the Rockpool
    library and is described neither by the notebook nor by the spec: the
    conversion rule is stated for any such operation. *)
Variable replace_module : nat -> nat -> PyM Store unit.

(** [MyNeurons._convert_from(mod)] (notebook cell 3), called on the class
    [cls] (MyNeurons or a subclass) with [mod] = [mdl], with the notebook's globals
    [globals]. *)
Definition _convert_from (globals : list string) (cls : list string) (mdl : nat)
    : PyM Store nat :=
  m ← get_module mdl;
  if isinstance_mod m cls then mret mdl
  else
    load_global globals "LIFNeuronWithSynsRealValue";;
    if isinstance_mod m ["LIFNeuronWithSynsRealValue"] then
      match dt m with
      | None =>
          raise (ValueError ("Graph module of type " ++ type_name m
            ++ " has no `dt` set, so cannot convert time constants when converting to "
            ++ cls_name cls ++ ".")%string)
      | Some dt_ =>
          load_global globals "np";;
          let ths := map np_round_astype_int (threshold m) in
          neurons ← _factory cls (length (input_nodes m)) (length (output_nodes m))
                       (name m) ths (Some dt_);
          replace_module mdl neurons;;
          mret neurons
      end
    else
      raise (ValueError ("Graph module of type " ++ type_name m
        ++ " cannot be converted to a " ++ cls_name cls)%string).

End Conversion.

End Graph.

(* ================================================================= *)
(** ** The notebook's design rules and [xylo_drc] (graph-mapping notebook) *)

Module GraphRules.
Import Drc Graph.

(** [for x in l: body(x)], for a loop body that returns or raises. *)
Fixpoint for_each {A} (l : list A) (body : A -> PyExc + unit) : PyExc + unit :=
  match l with
  | [] => inr tt
  | x :: l' =>
      match body x with
      | inl e => inl e
      | inr _ => for_each l' body
      end
  end.

Definition GenericNeurons : list string := ["GenericNeurons"; "GraphModule"; "object"].
Definition LinearWeights : list string := ["LinearWeights"; "GraphModule"; "object"].

(** Dereferencing a node or module reference held by the graph. *)
Definition node_at (st : Store) (n : nat) : PyExc + GraphNode :=
  match nodes st !! n with Some nd => inr nd | None => inl ReferenceError end.

Definition module_at (st : Store) (i : nat) : PyExc + GraphModule :=
  match modules st !! i with Some m => inr m | None => inl ReferenceError end.

(** Every node of [ns] and every module it links to through [links]
    exists in the store (always the case for Python references). *)
Definition links_resolved (st : Store) (ns : list nat) (links : GraphNode -> list nat)
    : bool :=
  forallb (fun n =>
    match nodes st !! n with
    | Some nd => forallb (fun s => bool_decide (is_Some (modules st !! s))) (links nd)
    | None => false
    end) ns.

(** The loop shared by the notebook's first two rules:
    [for n in ns: for s in links(n): if not ok(s): raise err(n, s)]. *)
Definition nested_scan (st : Store) (ns : list nat) (links : GraphNode -> list nat)
    (ok : GraphModule -> bool) (err : nat -> nat -> PyExc) : PyExc + unit :=
  for_each ns (fun n =>
    match node_at st n with
    | inl e => inl e
    | inr nd =>
        for_each (links nd) (fun s =>
          match module_at st s with
          | inl e => inl e
          | inr sm => if ok sm then inr tt else inl (err n s)
          end)
    end).

Section Rules.

(** [f"{n}"], [f"{s}"]: the [__repr__] of a graph node and of a graph
    module, defined by the Rockpool library. *)
Variable node_repr : Store -> nat -> string.
Variable module_repr : Store -> nat -> string.

Definition output_message (st : Store) (n s : nat) : string :=
  ("All network outputs must be directly from neurons." ++ nl
   ++ "A network output node " ++ node_repr st n ++ " has a source "
   ++ module_repr st s ++ " which is not a neuron.")%string.

Definition input_message (st : Store) (inp sink : nat) : string :=
  ("The network input must go first through a weight." ++ nl
   ++ "A network input node " ++ node_repr st inp ++ " has a sink module "
   ++ module_repr st sink ++ " which is not a LinearWeight.")%string.

(** [output_nodes_have_neurons_as_source(graph)] (cell 4) *)
Definition output_nodes_have_neurons_as_source : DesignRule (Store * GraphModule) :=
  MkRule "output_nodes_have_neurons_as_source" (fun g =>
    let '(st, graph) := g in
    for_each (output_nodes graph) (fun n =>
      match node_at st n with
      | inl e => inl e
      | inr nd =>
          for_each (source_modules nd) (fun s =>
            match module_at st s with
            | inl e => inl e
            | inr sm =>
                if isinstance_mod sm GenericNeurons then inr tt
                else inl (DRCError (output_message st n s))
            end)
      end)).

(** [first_module_is_a_weight(graph)] (cell 4) *)
Definition first_module_is_a_weight : DesignRule (Store * GraphModule) :=
  MkRule "first_module_is_a_weight" (fun g =>
    let '(st, graph) := g in
    for_each (input_nodes graph) (fun inp =>
      match node_at st inp with
      | inl e => inl e
      | inr nd =>
          for_each (sink_modules nd) (fun sink =>
            match module_at st sink with
            | inl e => inl e
            | inr sm =>
                if isinstance_mod sm LinearWeights then inr tt
                else inl (DRCError (input_message st inp sink))
            end)
      end)).

(** [le_16_input_channels(graph)] reads only [len(graph.input_nodes)]. *)
Definition le_16_input_channels_graph : DesignRule (Store * GraphModule) :=
  MkRule (dr_name le_16_input_channels)
    (fun g => dr_body le_16_input_channels (length (input_nodes g.2))).

(** [xylo_drc] (cell 5) *)
Definition xylo_drc : list (DesignRule (Store * GraphModule)) :=
  [output_nodes_have_neurons_as_source; first_module_is_a_weight;
   le_16_input_channels_graph].

End Rules.

(** [MyGraphModule.__post_init__(self, *args, **kwargs)] (cell 2): the
    base class's [__post_init__] ([super_post_init], Rockpool library
    code), then [if param1 < param2: raise ValueError(...)]. [param1] and
    [param2] are not local names of the method, so they are looked up
    among the notebook's globals [globals] (left to right); [gval] gives
    the values of bound globals. *)
Definition MyGraphModule_post_init (super_post_init : PyM Store unit)
    (globals : list string) (gval : string -> Q) : PyM Store unit :=
  super_post_init;;
  load_global globals "param1";;
  load_global globals "param2";;
  if Qlt_le_dec (gval "param1") (gval "param2")
  then raise (ValueError "param1 must be > param2")
  else mret tt.

(** An example network: input node 10 feeds the weights 0 and output
    node 11 is driven by the neurons 1 (a [MyNeurons], so a
    [GenericNeurons]); the sinks of the input node and the sources of the
    output node are given. *)
Definition example_store (out_sources in_sinks : list nat) : Store :=
  MkStore {[0 := MkModule LinearWeights [10] [] "weights" None [] [];
            1 := MkModule MyNeurons [] [11] "neurons" None [] []]}
          {[10 := MkNode [] in_sinks; 11 := MkNode out_sources []]} 12.

Definition example_graph : GraphModule :=
  MkModule ["Network"; "GraphModule"; "object"] [10] [11] "net" None [] [].

(** A real-valued LIF module at address 0, with a given [dt]. *)
Definition lif_store (dt_ : option Q) : Store :=
  MkStore {[0 := MkModule ["LIFNeuronWithSynsRealValue"; "GenericNeurons"; "GraphModule"; "object"]
                   [1] [2] "lif" dt_ [1 # 2; 3 # 2] []]}
          {[1 := MkNode [] [0]; 2 := MkNode [0] []]} 3.

End GraphRules.

(* ================================================================= *)
(** ** The functional module API (functional-API notebook) *)

Module Functional.

(** Attribute values: numbers and 1-D arrays (floats as integers, e.g.
    fixed point; the [uint32] random key as a 2-element array). *)
Inductive value : Type :=
  | VNum (z : Z)
  | VArr (zs : list Z).

#[global] Instance value_eq_dec : EqDecision value.
Proof. solve_decision. Defined.

(** [np.shape] of a value: a scalar has shape [()]. *)
Definition value_shape (v : value) : list nat :=
  match v with
  | VNum _ => []
  | VArr zs => [length zs]
  end.

(** The three attribute families of a module. *)
(** Rockpool's [Parameter], [State] and [SimulationParameter]. *)
Inductive family : Type := FParameter | FState | FSimulationParameter.

#[global] Instance family_eq_dec : EqDecision family.
Proof. solve_decision. Defined.

(** A registered attribute: its family, its current value and the value
    its declaration initialises it to. *)
Record Attr : Type := MkAttr {
  a_family : family;
  a_value : value;
  a_init : value
}.

(** A [JaxModule]: its class, its shape, its own registered attributes by
    name, and its sub-modules by attribute name, in registration order. *)
Inductive JaxModule : Type :=
  | MkMod (u_class : string) (u_shape : list nat) (u_attrs : gmap string Attr)
          (u_subs : list (string * JaxModule)).

Definition u_class (u : JaxModule) : string := match u with MkMod c _ _ _ => c end.
Definition u_shape (u : JaxModule) : list nat := match u with MkMod _ sh _ _ => sh end.
Definition u_attrs (u : JaxModule) : gmap string Attr :=
  match u with MkMod _ _ a _ => a end.
Definition u_subs (u : JaxModule) : list (string * JaxModule) :=
  match u with MkMod _ _ _ s => s end.

(** Induction over modules and their sub-modules. *)
Fixpoint JaxModule_ind' (P : JaxModule -> Prop)
    (H : forall c sh attrs subs, Forall (fun ns => P ns.2) subs -> P (MkMod c sh attrs subs))
    (u : JaxModule) : P u :=
  match u with
  | MkMod c sh attrs subs =>
      H c sh attrs subs
        ((fix go (l : list (string * JaxModule)) : Forall (fun ns => P ns.2) l :=
            match l with
            | [] => List.Forall_nil _
            | ns :: l' => List.Forall_cons _ ns l' (JaxModule_ind' P H ns.2) (go l')
            end) subs)
  end.

(** A hierarchical dotted name ["sub.x"], as the list of its components. *)
Abbreviation path := (list string) (only parsing).

(** An attribute bundle: dotted name to value. *)
Abbreviation Bundle := (gmap (list string) value) (only parsing).

(** The attribute registry of a module, flattened through its sub-modules:
    own attribute [k] at ["k"], sub-module [n]'s attribute [p] at
    ["n." ++ p]; an earlier registration wins. *)
Fixpoint attributes (u : JaxModule) : gmap (list string) Attr :=
  match u with
  | MkMod _ _ attrs subs =>
      kmap (fun k => [k]) attrs
      ∪ (fix go (l : list (string * JaxModule)) : gmap (list string) Attr :=
           match l with
           | [] => ∅
           | (n, s) :: l' => kmap (cons n) (attributes s) ∪ go l'
           end) subs
  end.

Definition select (fam : family) (a : Attr) : option value :=
  if decide (a_family a = fam) then Some (a_value a) else None.

(** [parameters()], [state()], [simulation_parameters()] *)
Definition parameters (u : JaxModule) : Bundle := omap (select FParameter) (attributes u).
Definition state (u : JaxModule) : Bundle := omap (select FState) (attributes u).
Definition simulation_parameters (u : JaxModule) : Bundle :=
  omap (select FSimulationParameter) (attributes u).

(** The declared attribute at a dotted name. *)
Fixpoint attr_at (u : JaxModule) (p : list string) : option Attr :=
  match u with
  | MkMod _ _ attrs subs =>
      match p with
      | [] => None
      | [k] => attrs !! k
      | n :: p' =>
          (fix go (l : list (string * JaxModule)) : option Attr :=
             match l with
             | [] => None
             | (n', s) :: l' =>
                 if String.eqb n n'
                 then match attr_at s p' with Some a => Some a | None => go l' end
                 else go l'
             end) subs
      end
  end.

Definition UnknownAttributeError (p : list string) : PyExc :=
  MkExc ["UnknownAttributeError"; "AttributeError"; "Exception"; "BaseException"; "object"]
        [String.concat "." p] None.
Definition ShapeMismatchError (p : list string) : PyExc :=
  MkExc ["ShapeMismatchError"; "ValueError"; "Exception"; "BaseException"; "object"]
        [String.concat "." p] None.

(** Modelled from the spec: the validation of [JaxModule.set_attributes],
    which is not part of the repository snapshot: "names in [bundle] not
    recognized by [unit] signal an [UnknownAttributeError]"; a value of
    the wrong leaf type or shape signals a [ShapeMismatchError]. *)
Definition check_entry (u : JaxModule) (p : list string) (v : value) : PyExc + unit :=
  match attr_at u p with
  | None => inl (UnknownAttributeError p)
  | Some a =>
      if decide (value_shape (a_value a) = value_shape v) then inr tt
      else inl (ShapeMismatchError p)
  end.

Fixpoint check_entries (u : JaxModule) (l : list (list string * value)) : PyExc + unit :=
  match l with
  | [] => inr tt
  | (p, v) :: l' =>
      match check_entry u p v with
      | inl e => inl e
      | inr _ => check_entries u l'
      end
  end.

Definition set_value (a : Attr) (ov : option value) : Attr :=
  match ov with
  | Some v => MkAttr (a_family a) v (a_init a)
  | None => a
  end.

(** Modelled from the spec: the update of [JaxModule.set_attributes]:
    "values from [bundle] overlaid onto matching names (parameters, state,
    or simulation parameters); names not present in [bundle] are left
    unchanged", recursively through sub-modules. [look] reads the bundle. *)
Fixpoint overlay (u : JaxModule) (look : list string -> option value) : JaxModule :=
  match u with
  | MkMod c sh attrs subs =>
      MkMod c sh (map_imap (fun k a => Some (set_value a (look [k]))) attrs)
        (map (fun ns => (ns.1, overlay ns.2 (fun p => look (ns.1 :: p)))) subs)
  end.

(** Modelled from the spec: [JaxModule.set_attributes(bundle)], returning
    a new module. *)
Definition set_attributes (u : JaxModule) (b : Bundle) : PyExc + JaxModule :=
  match check_entries u (map_to_list b) with
  | inl e => inl e
  | inr _ => inr (overlay u (fun p => b !! p))
  end.

(** Modelled from the spec: [JaxModule.reset_state()]: "a new Unit whose
    state entries are restored to their declared initial values;
    parameters unaffected". *)
Definition reset_attr (a : Attr) : Attr :=
  match a_family a with
  | FState => MkAttr FState (a_init a) (a_init a)
  | _ => a
  end.

Fixpoint reset_state (u : JaxModule) : JaxModule :=
  match u with
  | MkMod c sh attrs subs =>
      MkMod c sh (reset_attr <$> attrs) (map (fun ns => (ns.1, reset_state ns.2)) subs)
  end.

(** Modelled from the spec: the static part of [JaxModule.tree_flatten()]
    (class, shape, and the named sub-module structure). *)
Inductive TreeDef : Type :=
  TD (td_class : string) (td_shape : list nat) (td_subs : list (string * TreeDef)).

Fixpoint treedef (u : JaxModule) : TreeDef :=
  match u with
  | MkMod c sh _ subs => TD c sh (map (fun ns => (ns.1, treedef ns.2)) subs)
  end.

(** Modelled from the spec: [JaxModule.tree_flatten()]: the children
    (parameters, state, simulation parameters) and the static aux data. *)
Definition tree_flatten (u : JaxModule) : (Bundle * Bundle * Bundle) * TreeDef :=
  ((parameters u, state u, simulation_parameters u), treedef u).

(** Family and shape of a declared attribute. *)
Definition skel (a : Attr) : family * list nat := (a_family a, value_shape (a_value a)).

Section Unflatten.
(** [__init__] called with only a class and a shape: the attributes it
    declares, with their default values. *)
Variable ctor : string -> list nat -> gmap string Attr.

Fixpoint rebuild (td : TreeDef) : JaxModule :=
  match td with
  | TD c sh subs => MkMod c sh (ctor c sh) (map (fun ns => (ns.1, rebuild ns.2)) subs)
  end.

(** Modelled from the spec: [JaxModule.tree_unflatten(aux, children)]:
    construct from the shape, then overlay the three bundles. *)
Definition tree_unflatten (aux : TreeDef) (children : Bundle * Bundle * Bundle)
    : PyExc + JaxModule :=
  let '(ps, st, sp) := children in
  match set_attributes (rebuild aux) ps with
  | inl e => inl e
  | inr v1 =>
      match set_attributes v1 st with
      | inl e => inl e
      | inr v2 => set_attributes v2 sp
      end
  end.

(** The documented requirement on [__init__]: at every module of the
    tree, construction from the shape declares the same names, with the
    same families and shapes. *)
Fixpoint ctor_matches (u : JaxModule) : Prop :=
  match u with
  | MkMod c sh attrs subs =>
      skel <$> ctor c sh = skel <$> attrs /\
      (fix go (l : list (string * JaxModule)) : Prop :=
         match l with
         | [] => True
         | (_, s) :: l' => ctor_matches s /\ go l'
         end) subs
  end.
End Unflatten.

(** The Python heap of module objects, and numpy's global random state. *)
Record Heap : Type := MkHeap {
  objs : gmap nat JaxModule;
  np_random_state : Z
}.

Definition get_obj (l : nat) : PyM Heap JaxModule :=
  fun h => match objs h !! l with
           | Some u => (h, inr u)
           | None => (h, inl Graph.ReferenceError)
           end.

(** A new object at a fresh address. *)
Definition new_obj (u : JaxModule) : PyM Heap nat :=
  fun h => let l := fresh (dom (objs h)) in
           (MkHeap (<[l := u]> (objs h)) (np_random_state h), inr l).

Definition lift {S A} (r : PyExc + A) : PyM S A := fun s => (s, r).

(** [mod.set_attributes(bundle)]: a new module object; [mod] is kept. *)
Definition call_set_attributes (l : nat) (b : Bundle) : PyM Heap nat :=
  u ← get_obj l;
  v ← lift (set_attributes u b);
  new_obj v.

(** The notebook's [RateEulerJax(3)] as a module value: parameters [tau]
    and [bias], the simulation parameter [dt], and the state [neur_state]
    (zero) and [rng_key] (the key printed in the notebook). *)
Definition rate_mod : JaxModule :=
  MkMod "RateEulerJax" [3%nat]
    {[ "tau" := MkAttr FParameter (VArr [4; 4; 4]%Z) (VArr [4; 4; 4]%Z);
       "bias" := MkAttr FParameter (VArr [0; 0; 0]%Z) (VArr [0; 0; 0]%Z);
       "dt" := MkAttr FSimulationParameter (VNum 1%Z) (VNum 1%Z);
       "neur_state" := MkAttr FState (VArr [0; 0; 0]%Z) (VArr [0; 0; 0]%Z);
       "rng_key" := MkAttr FState (VArr [2856300875; 1196167101]%Z)
                                  (VArr [2856300875; 1196167101]%Z) ]}
    [].

(** A shape-only constructor for [RateEulerJax]: unit time constants,
    zero bias and state, a zero key. *)
Definition rate_ctor (c : string) (sh : list nat) : gmap string Attr :=
  let n := hd 0%nat sh in
  {[ "tau" := MkAttr FParameter (VArr (repeat 1%Z n)) (VArr (repeat 1%Z n));
     "bias" := MkAttr FParameter (VArr (repeat 0%Z n)) (VArr (repeat 0%Z n));
     "dt" := MkAttr FSimulationParameter (VNum 1%Z) (VNum 1%Z);
     "neur_state" := MkAttr FState (VArr (repeat 0%Z n)) (VArr (repeat 0%Z n));
     "rng_key" := MkAttr FState (VArr [0; 0]%Z) (VArr [0; 0]%Z) ]}.

End Functional.

(* ================================================================= *)
(** * Proofs *)

(** Unfold the monad's plumbing so that a run computes. *)
Ltac py_unfold :=
  cbn in *;
  cbv [mbind mret PyM_bind PyM_ret bind ret raise try_except get put] in *;
  cbn in *.

Module DrcFacts.
Import Drc.

Lemma check_drc_passing_prefix {G} (graph : G) pre rest log :
  Forall (passes graph) pre ->
  check_drc graph (pre ++ rest) log
  = check_drc graph rest (log ++ map dr_name pre).
Proof.
  intros Hpre. revert log.
  induction Hpre as [|dr pre Hdr Hpre IH]; intros log; simpl.
  - by rewrite app_nil_r.
  - unfold passes in Hdr. py_unfold. unfold call_rule. rewrite Hdr. cbn.
    rewrite IH. by rewrite <- app_assoc.
Qed.

Lemma check_drc_all_pass {G} (graph : G) rules log :
  Forall (passes graph) rules ->
  check_drc graph rules log = (log ++ map dr_name rules, inr tt).
Proof.
  intros H. rewrite <- (app_nil_r rules).
  rewrite check_drc_passing_prefix by done. rewrite app_nil_r. reflexivity.
Qed.

Lemma check_drc_ok_inv {G} (graph : G) rules log log' :
  check_drc graph rules log = (log', inr tt) -> Forall (passes graph) rules.
Proof.
  revert log. induction rules as [|dr rest IH]; intros log H; constructor.
  - py_unfold. unfold call_rule in H. unfold passes.
    destruct (dr_body dr graph) as [e|[]]; [|done].
    destruct (isinstance e "DRCError"); cbn in H; congruence.
  - py_unfold. unfold call_rule in H.
    destruct (dr_body dr graph) as [e|[]].
    + destruct (isinstance e "DRCError"); cbn in H; congruence.
    + eapply IH. exact H.
Qed.

Lemma check_drc_first_failure {G} (graph : G) pre dr post e log :
  Forall (passes graph) pre -> dr_body dr graph = inl e ->
  check_drc graph (pre ++ dr :: post) log
  = (log ++ map dr_name pre ++ [dr_name dr],
     if isinstance e "DRCError"
     then inl (set_context e (DRCError (drc_message (dr_name dr) (exc_args e))))
     else inl e).
Proof.
  intros Hpre Hdr. rewrite check_drc_passing_prefix by done.
  py_unfold. unfold call_rule. rewrite Hdr. cbn.
  rewrite <- app_assoc. by destruct (isinstance e "DRCError").
Qed.

(** C1 (design-rule runner, fail fast). [check_drc] calls the rules in
    order; it returns normally exactly when every rule passes; when the
    first rule that does not pass raises a [DRCError] (a violation), the
    run raises a [DRCError] whose message is "Design rule <name> triggered
    an error:" followed by all the violation's [args], with the violation
    as its context, and the log of calls ends with that rule: no later
    rule is invoked. *)
Theorem check_drc_fail_fast {G} (graph : G) (rules : list (DesignRule G))
    (log : list string) :
  (snd (check_drc graph rules log) = inr tt <-> Forall (passes graph) rules) /\
  (forall pre dr post e,
     rules = pre ++ dr :: post ->
     Forall (passes graph) pre ->
     dr_body dr graph = inl e ->
     isinstance e "DRCError" = true ->
     check_drc graph rules log =
       (log ++ map dr_name pre ++ [dr_name dr],
        inl (MkExc DRCError_mro [drc_message (dr_name dr) (exc_args e)] (Some e)))).
Proof.
  split.
  - split.
    + intros H. destruct (check_drc graph rules log) as [log' r] eqn:E.
      cbn in H. subst r. eapply check_drc_ok_inv. exact E.
    + intros H. by rewrite check_drc_all_pass.
  - intros pre dr post e -> Hpre Hdr Hdrc.
    rewrite (check_drc_first_failure graph pre dr post e log Hpre Hdr).
    by rewrite Hdrc.
Qed.

(** C10 (only [DRCError] is wrapped). When the first rule that does not
    pass raises an exception that is not a [DRCError], [check_drc]
    re-raises that very exception, without the rule's name, and no later
    rule is invoked. *)
Theorem check_drc_other_exception_unwrapped {G} (graph : G)
    (rules : list (DesignRule G)) (log : list string) pre dr post e :
  rules = pre ++ dr :: post ->
  Forall (passes graph) pre ->
  dr_body dr graph = inl e ->
  isinstance e "DRCError" = false ->
  check_drc graph rules log = (log ++ map dr_name pre ++ [dr_name dr], inl e).
Proof.
  intros -> Hpre Hdr Hnot.
  rewrite (check_drc_first_failure graph pre dr post e log Hpre Hdr).
  by rewrite Hnot.
Qed.

(** The notebook's rule list on a graph with 20 input nodes: the rule
    [le_16_input_channels] fires and the next rule is never called. *)
Lemma check_drc_fail_fast_witness :
  check_drc 20 [le_16_input_channels; MkRule "first_module_is_a_weight" (fun _ => inr tt)] []
  = (["le_16_input_channels"],
     inl (MkExc DRCError_mro
            [drc_message "le_16_input_channels"
               ["Xylo only supports up to 16 input channels. The network requires 20 input channels."]]
            (Some (DRCError "Xylo only supports up to 16 input channels. The network requires 20 input channels.")))).
Proof.
  apply (proj2 (check_drc_fail_fast 20
    [le_16_input_channels; MkRule "first_module_is_a_weight" (fun _ => inr tt)] [])
    [] le_16_input_channels [MkRule "first_module_is_a_weight" (fun _ => inr tt)]
    (DRCError "Xylo only supports up to 16 input channels. The network requires 20 input channels.")).
  - reflexivity.
  - constructor.
  - reflexivity.
  - reflexivity.
Defined.

(** A rule that fails with an [AttributeError] after a passing rule. *)
Lemma check_drc_other_exception_unwrapped_witness :
  check_drc 3
    [le_16_input_channels;
     MkRule "broken_rule" (fun _ => inl (MkExc ["AttributeError"; "Exception"; "BaseException"; "object"] ["no attribute"] None));
     le_16_input_channels] []
  = (["le_16_input_channels"; "broken_rule"],
     inl (MkExc ["AttributeError"; "Exception"; "BaseException"; "object"] ["no attribute"] None)).
Proof.
  apply (check_drc_other_exception_unwrapped 3 _ []
    [le_16_input_channels]
    (MkRule "broken_rule" (fun _ => inl (MkExc ["AttributeError"; "Exception"; "BaseException"; "object"] ["no attribute"] None)))
    [le_16_input_channels]).
  - reflexivity.
  - repeat constructor.
  - reflexivity.
  - reflexivity.
Defined.

End DrcFacts.

Module GraphFacts.
Import Graph.

(** The module record with its input list replaced. *)
Definition with_inputs (gm : GraphModule) (l : list nat) : GraphModule :=
  MkModule (gm_mro gm) l (output_nodes gm) (name gm) (dt gm) (threshold gm)
    (thresholds gm).

(** Registering [x] in [l] the way [add_input] and [add_sink] do. *)
Definition reg (x : nat) (l : list nat) : list nat :=
  if bool_decide (x ∈ l) then l else l ++ [x].

Lemma reg_idem x l : reg x (reg x l) = reg x l.
Proof.
  unfold reg. destruct (decide (x ∈ l)) as [H|H].
  - rewrite (bool_decide_true _ H). by rewrite (bool_decide_true _ H).
  - rewrite (bool_decide_false _ H).
    rewrite (bool_decide_true (x ∈ l ++ [x])); [done|]. set_solver.
Qed.

Lemma count_occ_reg x l :
  (count_occ Nat.eq_dec l x <= 1)%nat -> count_occ Nat.eq_dec (reg x l) x = 1%nat.
Proof.
  intros Hle. unfold reg. case_bool_decide as H.
  - apply list_elem_of_In in H. apply (count_occ_In Nat.eq_dec) in H. lia.
  - rewrite count_occ_app. cbn. destruct (Nat.eq_dec x x) as [_|]; [|done].
    rewrite (proj1 (count_occ_not_In Nat.eq_dec l x)); [done|].
    by rewrite <- list_elem_of_In.
Qed.

Lemma add_input_step st m n gm node :
  modules st !! m = Some gm -> nodes st !! n = Some node ->
  add_input m n st =
    (MkStore (<[m := with_inputs gm (reg n (input_nodes gm))]> (modules st))
             (<[n := MkNode (source_modules node) (reg m (sink_modules node))]> (nodes st))
             (next_id st), inr tt).
Proof.
  intros Hm Hn. destruct st as [mods nds nxt]. cbn in *.
  unfold add_input, add_sink. py_unfold. unfold get_module. cbn. rewrite Hm. cbn.
  unfold reg. case_bool_decide as Hin.
  - cbn. unfold get_node. cbn. rewrite Hn. cbn.
    replace (<[m:=with_inputs gm (input_nodes gm)]> mods) with mods.
    2:{ symmetry. apply insert_id. rewrite Hm. by destruct gm. }
    case_bool_decide as Hs; cbn; [|done].
    f_equal. f_equal. symmetry. apply insert_id. rewrite Hn. by destruct node.
  - cbn. unfold get_node, set_module. cbn. rewrite Hn. cbn.
    case_bool_decide as Hs; cbn; [|done].
    f_equal. f_equal. symmetry. apply insert_id. rewrite Hn. by destruct node.
Qed.

(** C8 (spec-modelled [add_input] is idempotent). On a store where [n]
    is registered at most once among [m]'s inputs and [m] at most once
    among [n]'s sinks, a second [add_input m n] after a first one changes
    nothing, and after it [n] is registered exactly once as an input of
    [m] and [m] exactly once as a sink of [n]. *)
Theorem add_input_idempotent (st : Store) (m n : nat) (gm : GraphModule)
    (node : GraphNode) :
  modules st !! m = Some gm ->
  nodes st !! n = Some node ->
  (count_occ Nat.eq_dec (input_nodes gm) n <= 1)%nat ->
  (count_occ Nat.eq_dec (sink_modules node) m <= 1)%nat ->
  (add_input m n;; add_input m n) st = add_input m n st /\
  exists gm' node',
    modules (fst (add_input m n st)) !! m = Some gm' /\
    nodes (fst (add_input m n st)) !! n = Some node' /\
    count_occ Nat.eq_dec (input_nodes gm') n = 1%nat /\
    count_occ Nat.eq_dec (sink_modules node') m = 1%nat.
Proof.
  intros Hm Hn Hci Hcs. split.
  - cbv [mbind PyM_bind bind]. rewrite (add_input_step st m n gm node Hm Hn).
    rewrite (add_input_step _ m n (with_inputs gm (reg n (input_nodes gm)))
               (MkNode (source_modules node) (reg m (sink_modules node))));
      cbn; [| by rewrite lookup_insert_eq | by rewrite lookup_insert_eq].
    rewrite !insert_insert_eq, !reg_idem. reflexivity.
  - rewrite (add_input_step st m n gm node Hm Hn). cbn.
    eexists _, _. rewrite !lookup_insert_eq. split; [done|]. split; [done|].
    cbn. split; by apply count_occ_reg.
Qed.

(** Module 0 takes node 1 as input; registering node 2 twice. *)
Lemma add_input_idempotent_witness :
  let st := MkStore {[0 := MkModule ["LinearWeights"; "GraphModule"; "object"]
                             [1] [] "w" None [] []]}
                    {[1 := MkNode [] [0]; 2 := MkNode [] []]} 3 in
  (add_input 0 2;; add_input 0 2) st = add_input 0 2 st /\
  exists gm' node',
    modules (fst (add_input 0 2 st)) !! 0 = Some gm' /\
    nodes (fst (add_input 0 2 st)) !! 2 = Some node' /\
    count_occ Nat.eq_dec (input_nodes gm') 2 = 1%nat /\
    count_occ Nat.eq_dec (sink_modules node') 0 = 1%nat.
Proof.
  intros st.
  apply (add_input_idempotent st 0 2
           (MkModule ["LinearWeights"; "GraphModule"; "object"] [1] [] "w" None [] [])
           (MkNode [] [])).
  - reflexivity.
  - reflexivity.
  - cbn. lia.
  - cbn. lia.
Defined.

(** C5 (amended). Called on a module that is already an instance of the
    target class, [_convert_from] returns that very module and leaves the
    store untouched. Once the name [LIFNeuronWithSynsRealValue] resolves,
    a module of neither kind reaches the fallback branch, which raises a
    [ValueError] (there is no dedicated conversion error class) whose
    message names [type(mod).__name__] and [cls.__name__]. *)
Theorem convert_from_identity_or_valueerror
    (replace_module : nat -> nat -> PyM Store unit) (globals : list string)
    (cls : list string) (mdl : nat) (m : GraphModule) (st : Store) :
  modules st !! mdl = Some m ->
  (isinstance_mod m cls = true ->
   _convert_from replace_module globals cls mdl st = (st, inr mdl)) /\
  ("LIFNeuronWithSynsRealValue" ∈ globals ->
   isinstance_mod m cls = false ->
   isinstance_mod m ["LIFNeuronWithSynsRealValue"] = false ->
   _convert_from replace_module globals cls mdl st =
     (st, inl (ValueError ("Graph module of type " ++ type_name m
                 ++ " cannot be converted to a " ++ cls_name cls)%string))).
Proof.
  intros Hm. unfold _convert_from. split.
  - intros Hc. py_unfold. unfold get_module. rewrite Hm. cbn. by rewrite Hc.
  - intros Hg Hc Hl. py_unfold. unfold get_module. rewrite Hm. cbn. rewrite Hc.
    unfold load_global. rewrite (bool_decide_true _ Hg). cbn. by rewrite Hl.
Qed.

(** A [LinearWeights] module converted to [MyNeurons]: the fallback's
    [ValueError] once the name resolves. *)
Lemma convert_from_identity_or_valueerror_witness :
  let st := MkStore {[0 := MkModule ["LinearWeights"; "GraphModule"; "object"]
                             [1] [2] "w" None [] []]}
                    {[1 := MkNode [] [0]; 2 := MkNode [0] []]} 3 in
  _convert_from (fun _ _ => mret tt) ("LIFNeuronWithSynsRealValue" :: notebook_globals)
    MyNeurons 0 st
  = (st, inl (ValueError "Graph module of type LinearWeights cannot be converted to a MyNeurons")).
Proof.
  intros st.
  apply (convert_from_identity_or_valueerror (fun _ _ => mret tt)
           ("LIFNeuronWithSynsRealValue" :: notebook_globals) MyNeurons 0
           (MkModule ["LinearWeights"; "GraphModule"; "object"] [1] [2] "w" None [] [])
           st).
  - reflexivity.
  - left.
  - reflexivity.
  - reflexivity.
Defined.

(** C5 as stated fails: converting a [LinearWeights] module to [MyNeurons]
    in the notebook raises a [NameError] (the rule's test names the
    unimported class [LIFNeuronWithSynsRealValue]), and with that name
    bound it raises a [ValueError]; neither is an
    [UnsupportedConversionError]. *)
Lemma convert_from_no_unsupported_conversion_error :
  let st := MkStore {[0 := MkModule ["LinearWeights"; "GraphModule"; "object"]
                             [1] [2] "w" None [] []]}
                    {[1 := MkNode [] [0]; 2 := MkNode [0] []]} 3 in
  let rm := fun _ _ : nat => (mret tt : PyM Store unit) in
  snd (_convert_from rm notebook_globals MyNeurons 0 st)
    = inl (NameError "LIFNeuronWithSynsRealValue") /\
  snd (_convert_from rm ("LIFNeuronWithSynsRealValue" :: notebook_globals) MyNeurons 0 st)
    = inl (ValueError "Graph module of type LinearWeights cannot be converted to a MyNeurons") /\
  (forall globals e,
     globals = notebook_globals \/ globals = "LIFNeuronWithSynsRealValue" :: notebook_globals ->
     snd (_convert_from rm globals MyNeurons 0 st) = inl e ->
     isinstance e "UnsupportedConversionError" = false).
Proof.
  intros st rm. split; [reflexivity|]. split; [reflexivity|].
  intros globals e [-> | ->] He; vm_compute in He; inversion He; subst; reflexivity.
Qed.

End GraphFacts.

Module GraphRulesFacts.
Import Drc Graph GraphRules.

Lemma for_each_ok {A} (l : list A) (f : A -> PyExc + unit) :
  for_each l f = inr tt <-> Forall (fun x => f x = inr tt) l.
Proof.
  induction l as [|x l IH]; cbn.
  - split; [constructor|done].
  - destruct (f x) as [e|[]] eqn:E.
    + split; [discriminate|]. intros H. inversion H; congruence.
    + rewrite IH. split; [by constructor|]. by inversion 1.
Qed.

Lemma for_each_err {A} (l : list A) (f : A -> PyExc + unit) e :
  for_each l f = inl e -> exists x, x ∈ l /\ f x = inl e.
Proof.
  induction l as [|x l IH]; cbn; [discriminate|].
  destruct (f x) as [e'|[]] eqn:E.
  - intros [= <-]. exists x. split; [left|done].
  - intros H. destruct (IH H) as (y & Hy & Hf). exists y. split; [by right|done].
Qed.

Lemma for_each_first {A} (pre : list A) x post (f : A -> PyExc + unit) e :
  Forall (fun y => f y = inr tt) pre -> f x = inl e ->
  for_each (pre ++ x :: post) f = inl e.
Proof.
  induction 1 as [|y pre Hy _ IH]; cbn; intros Hx; [by rewrite Hx|].
  rewrite Hy. auto.
Qed.

Lemma links_resolved_spec st ns links :
  links_resolved st ns links = true <->
  forall n, n ∈ ns -> exists nd, nodes st !! n = Some nd /\
    forall s, s ∈ links nd -> is_Some (modules st !! s).
Proof.
  unfold links_resolved. rewrite forallb_forall. split.
  - intros H n Hn. apply list_elem_of_In in Hn. specialize (H n Hn).
    destruct (nodes st !! n) as [nd|]; [|discriminate].
    exists nd. split; [done|]. intros s Hs. apply list_elem_of_In in Hs.
    rewrite forallb_forall in H. specialize (H s Hs). by apply bool_decide_eq_true in H.
  - intros H n Hn. apply list_elem_of_In in Hn. destruct (H n Hn) as (nd & -> & Hs).
    apply forallb_forall. intros s Hs'. apply list_elem_of_In in Hs'.
    by apply bool_decide_eq_true, Hs.
Qed.

Lemma nested_scan_ok st ns links ok err :
  links_resolved st ns links = true ->
  nested_scan st ns links ok err = inr tt <->
  (forall n nd s sm, n ∈ ns -> nodes st !! n = Some nd -> s ∈ links nd ->
     modules st !! s = Some sm -> ok sm = true).
Proof.
  intros Hres. pose proof (proj1 (links_resolved_spec st ns links) Hres) as Hres'. clear Hres. rename Hres' into Hres.
  unfold nested_scan. rewrite for_each_ok, Forall_forall. split.
  - intros H n nd s sm Hn Hnd Hs Hsm. specialize (H n Hn). cbv beta in H.
    unfold node_at in H. rewrite Hnd in H.
    apply for_each_ok in H. rewrite Forall_forall in H. specialize (H s Hs).
    unfold module_at in H. rewrite Hsm in H. by destruct (ok sm).
  - intros H n Hn. destruct (Hres n Hn) as (nd & Hnd & Hs).
    unfold node_at. rewrite Hnd.
    apply for_each_ok. rewrite Forall_forall. intros s Hsin.
    destruct (Hs s Hsin) as [sm Hsm]. unfold module_at. rewrite Hsm.
    by rewrite (H n nd s sm Hn Hnd Hsin Hsm).
Qed.

Lemma nested_scan_err st ns links ok err e :
  links_resolved st ns links = true -> nested_scan st ns links ok err = inl e ->
  exists n s, e = err n s.
Proof.
  intros Hres H. pose proof (proj1 (links_resolved_spec st ns links) Hres) as Hres'. clear Hres. rename Hres' into Hres.
  unfold nested_scan in H. apply for_each_err in H as (n & Hn & H).
  destruct (Hres n Hn) as (nd & Hnd & Hs). unfold node_at in H. rewrite Hnd in H.
  apply for_each_err in H as (s & Hsin & H). destruct (Hs s Hsin) as [sm Hsm].
  unfold module_at in H. rewrite Hsm in H.
  destruct (ok sm); [discriminate|]. injection H as <-. eauto.
Qed.

Lemma nested_scan_first st pre n post links ok err nd spre s spost sm :
  Forall (fun n' => exists nd', nodes st !! n' = Some nd' /\
            Forall (fun s' => exists sm', modules st !! s' = Some sm' /\ ok sm' = true)
                   (links nd')) pre ->
  nodes st !! n = Some nd -> links nd = spre ++ s :: spost ->
  Forall (fun s' => exists sm', modules st !! s' = Some sm' /\ ok sm' = true) spre ->
  modules st !! s = Some sm -> ok sm = false ->
  nested_scan st (pre ++ n :: post) links ok err = inl (err n s).
Proof.
  intros Hpre Hnd Hl Hspre Hsm Hok. unfold nested_scan. apply for_each_first.
  - eapply Forall_impl; [exact Hpre|]. intros n' (nd' & Hnd' & Hall). cbv beta.
    unfold node_at. rewrite Hnd'.
    apply for_each_ok. eapply Forall_impl; [exact Hall|].
    intros s' (sm' & Hsm' & Hok'). unfold module_at. by rewrite Hsm', Hok'.
  - cbv beta. unfold node_at. rewrite Hnd, Hl. apply for_each_first.
    + eapply Forall_impl; [exact Hspre|].
      intros s' (sm' & Hsm' & Hok'). unfold module_at. by rewrite Hsm', Hok'.
    + unfold module_at. by rewrite Hsm, Hok.
Qed.

Lemma output_rule_scan nr mr st g :
  dr_body (output_nodes_have_neurons_as_source nr mr) (st, g) =
  nested_scan st (output_nodes g) source_modules
    (fun sm => isinstance_mod sm GenericNeurons)
    (fun n s => DRCError (output_message nr mr st n s)).
Proof. reflexivity. Qed.

Lemma input_rule_scan nr mr st g :
  dr_body (first_module_is_a_weight nr mr) (st, g) =
  nested_scan st (input_nodes g) sink_modules
    (fun sm => isinstance_mod sm LinearWeights)
    (fun n s => DRCError (input_message nr mr st n s)).
Proof. reflexivity. Qed.

Lemma le_16_graph_ok st g :
  dr_body le_16_input_channels_graph (st, g) = inr tt <-> (length (input_nodes g) <= 16)%nat.
Proof.
  unfold le_16_input_channels_graph, le_16_input_channels. cbn [dr_body snd].
  destruct (Nat.ltb_spec 16 (length (input_nodes g))); split; intros; try lia; done.
Qed.

Lemma check_drc_ok_iff {G} (graph : G) rules log :
  snd (check_drc graph rules log) = inr tt <-> Forall (passes graph) rules.
Proof.
  split.
  - intros H. destruct (check_drc graph rules log) as [log' r] eqn:E.
    cbn in H. subst r. eapply DrcFacts.check_drc_ok_inv. exact E.
  - intros H. by rewrite DrcFacts.check_drc_all_pass.
Qed.

Lemma check_drc_inl_inv {G} (graph : G) rules log log' e :
  check_drc graph rules log = (log', inl e) ->
  exists dr e0, dr ∈ rules /\ dr_body dr graph = inl e0 /\
    e = if isinstance e0 "DRCError"
        then MkExc DRCError_mro [drc_message (dr_name dr) (exc_args e0)] (Some e0)
        else e0.
Proof.
  revert log. induction rules as [|dr rest IH]; intros log H; py_unfold; [discriminate|].
  unfold call_rule in H. destruct (dr_body dr graph) as [e0|[]] eqn:E.
  - exists dr, e0. split; [left|split; [done|]].
    destruct (isinstance e0 "DRCError"); injection H as _ <-; reflexivity.
  - destruct (IH _ H) as (dr' & e0 & Hin & Hb & He). exists dr', e0.
    split; [by right|done].
Qed.

(** [output_nodes_have_neurons_as_source] passes exactly when every
    source module of every output node of the graph is a
    [GenericNeurons] (a subclass counts); on a graph whose references
    resolve it raises nothing but a [DRCError]. *)
Theorem output_rule_check nr mr st g :
  links_resolved st (output_nodes g) source_modules = true ->
  (dr_body (output_nodes_have_neurons_as_source nr mr) (st, g) = inr tt <->
   (forall n nd s sm, n ∈ output_nodes g -> nodes st !! n = Some nd ->
      s ∈ source_modules nd -> modules st !! s = Some sm ->
      isinstance_mod sm GenericNeurons = true)) /\
  (forall e, dr_body (output_nodes_have_neurons_as_source nr mr) (st, g) = inl e ->
   isinstance e "DRCError" = true).
Proof.
  intros Hres. rewrite output_rule_scan. split; [by apply nested_scan_ok|].
  intros e H. destruct (nested_scan_err _ _ _ _ _ _ Hres H) as (n & s & ->).
  reflexivity.
Qed.

(** The output rule reports the first offending pair in iteration order:
    the first output node with a non-neuron source, and the first such
    source of that node. *)
Theorem output_rule_first_offender nr mr st g pre n post nd spre s spost sm :
  output_nodes g = pre ++ n :: post ->
  Forall (fun n' => exists nd', nodes st !! n' = Some nd' /\
            Forall (fun s' => exists sm', modules st !! s' = Some sm' /\
                                isinstance_mod sm' GenericNeurons = true)
                   (source_modules nd')) pre ->
  nodes st !! n = Some nd -> source_modules nd = spre ++ s :: spost ->
  Forall (fun s' => exists sm', modules st !! s' = Some sm' /\
                      isinstance_mod sm' GenericNeurons = true) spre ->
  modules st !! s = Some sm -> isinstance_mod sm GenericNeurons = false ->
  dr_body (output_nodes_have_neurons_as_source nr mr) (st, g) =
    inl (DRCError ("All network outputs must be directly from neurons." ++ nl
           ++ "A network output node " ++ nr st n ++ " has a source "
           ++ mr st s ++ " which is not a neuron.")%string).
Proof.
  intros Hg Hpre Hnd Hl Hspre Hsm Hok. rewrite output_rule_scan, Hg.
  exact (nested_scan_first st pre n post source_modules _ _ nd spre s spost sm
           Hpre Hnd Hl Hspre Hsm Hok).
Qed.

(** [first_module_is_a_weight] passes exactly when every sink module of
    every input node of the graph is a [LinearWeights]; on a graph whose
    references resolve it raises nothing but a [DRCError]. *)
Theorem input_rule_check nr mr st g :
  links_resolved st (input_nodes g) sink_modules = true ->
  (dr_body (first_module_is_a_weight nr mr) (st, g) = inr tt <->
   (forall n nd s sm, n ∈ input_nodes g -> nodes st !! n = Some nd ->
      s ∈ sink_modules nd -> modules st !! s = Some sm ->
      isinstance_mod sm LinearWeights = true)) /\
  (forall e, dr_body (first_module_is_a_weight nr mr) (st, g) = inl e ->
   isinstance e "DRCError" = true).
Proof.
  intros Hres. rewrite input_rule_scan. split; [by apply nested_scan_ok|].
  intros e H. destruct (nested_scan_err _ _ _ _ _ _ Hres H) as (n & s & ->).
  reflexivity.
Qed.

(** The input rule reports the first input node with a sink that is not
    a [LinearWeights], and the first such sink of that node. *)
Theorem input_rule_first_offender nr mr st g pre n post nd spre s spost sm :
  input_nodes g = pre ++ n :: post ->
  Forall (fun n' => exists nd', nodes st !! n' = Some nd' /\
            Forall (fun s' => exists sm', modules st !! s' = Some sm' /\
                                isinstance_mod sm' LinearWeights = true)
                   (sink_modules nd')) pre ->
  nodes st !! n = Some nd -> sink_modules nd = spre ++ s :: spost ->
  Forall (fun s' => exists sm', modules st !! s' = Some sm' /\
                      isinstance_mod sm' LinearWeights = true) spre ->
  modules st !! s = Some sm -> isinstance_mod sm LinearWeights = false ->
  dr_body (first_module_is_a_weight nr mr) (st, g) =
    inl (DRCError ("The network input must go first through a weight." ++ nl
           ++ "A network input node " ++ nr st n ++ " has a sink module "
           ++ mr st s ++ " which is not a LinearWeight.")%string).
Proof.
  intros Hg Hpre Hnd Hl Hspre Hsm Hok. rewrite input_rule_scan, Hg.
  exact (nested_scan_first st pre n post sink_modules _ _ nd spre s spost sm
           Hpre Hnd Hl Hspre Hsm Hok).
Qed.

(** [check_drc(graph, xylo_drc)] on a graph whose references resolve
    returns normally exactly when all outputs come from neurons, all
    inputs go to weights and there are at most 16 inputs; otherwise it
    raises a [DRCError] naming one of the three rules and wrapping that
    rule's [DRCError]: no other exception escapes. *)
Theorem xylo_drc_outcome nr mr st g log :
  links_resolved st (output_nodes g) source_modules = true ->
  links_resolved st (input_nodes g) sink_modules = true ->
  (snd (check_drc (st, g) (xylo_drc nr mr) log) = inr tt <->
   (forall n nd s sm, n ∈ output_nodes g -> nodes st !! n = Some nd ->
      s ∈ source_modules nd -> modules st !! s = Some sm ->
      isinstance_mod sm GenericNeurons = true) /\
   (forall n nd s sm, n ∈ input_nodes g -> nodes st !! n = Some nd ->
      s ∈ sink_modules nd -> modules st !! s = Some sm ->
      isinstance_mod sm LinearWeights = true) /\
   (length (input_nodes g) <= 16)%nat) /\
  (forall e, snd (check_drc (st, g) (xylo_drc nr mr) log) = inl e ->
   exists dr e0, dr ∈ xylo_drc nr mr /\ dr_body dr (st, g) = inl e0 /\
     isinstance e0 "DRCError" = true /\
     e = MkExc DRCError_mro [drc_message (dr_name dr) (exc_args e0)] (Some e0)).
Proof.
  intros Hout Hin.
  split.
  - rewrite check_drc_ok_iff. unfold xylo_drc.
    rewrite !Forall_cons, Forall_nil. unfold passes.
    rewrite output_rule_scan, input_rule_scan, (nested_scan_ok _ _ _ _ _ Hout),
      (nested_scan_ok _ _ _ _ _ Hin), le_16_graph_ok. tauto.
  - intros e H. destruct (check_drc (st, g) (xylo_drc nr mr) log) as [log' r] eqn:E.
    cbn in H. subst r.
    destruct (check_drc_inl_inv _ _ _ _ _ E) as (dr & e0 & Hdr & Hb & He).
    assert (Hdrc : isinstance e0 "DRCError" = true).
    { unfold xylo_drc in Hdr. rewrite !elem_of_cons, elem_of_nil in Hdr.
      destruct Hdr as [->|[->|[->|[]]]].
      - rewrite output_rule_scan in Hb.
        by destruct (nested_scan_err _ _ _ _ _ _ Hout Hb) as (n & s & ->).
      - rewrite input_rule_scan in Hb.
        by destruct (nested_scan_err _ _ _ _ _ _ Hin Hb) as (n & s & ->).
      - unfold le_16_input_channels_graph, le_16_input_channels in Hb. cbn [dr_body snd] in Hb.
        destruct (Nat.ltb 16 (length (input_nodes g))); [|discriminate].
        injection Hb as <-. reflexivity. }
    rewrite Hdrc in He. exists dr, e0. auto.
Qed.

(** Running a concatenation of rule lists is running the first list,
    then (if it returned normally) the second, continuing the same log. *)
Theorem check_drc_app {G} (graph : G) (r1 r2 : list (DesignRule G)) (log : list string) :
  check_drc graph (r1 ++ r2) log = (check_drc graph r1;; check_drc graph r2) log.
Proof.
  revert log. induction r1 as [|dr r1 IH]; intros log; [reflexivity|].
  cbn [app check_drc]. cbv [mbind PyM_bind bind].
  destruct (try_except "DRCError" (call_rule dr graph)
              (fun e => raise (DRCError (drc_message (dr_name dr) (exc_args e)))) log)
    as [log' [e|[]]]; [reflexivity|].
  apply IH.
Qed.

(** [MyGraphModule.__post_init__] refers to [param1] instead of
    [self.param1]: when no global [param1] exists (as in the notebook),
    it raises [NameError] right after the base class's [__post_init__]
    returns, so a [MyGraphModule] can never be built; an exception of the
    base class's [__post_init__] propagates unchanged. *)
Theorem post_init_name_error super_post_init globals gval st :
  "param1" ∉ globals ->
  MyGraphModule_post_init super_post_init globals gval st =
    match super_post_init st with
    | (st', inl e) => (st', inl e)
    | (st', inr _) => (st', inl (NameError "param1"))
    end.
Proof.
  intros H. unfold MyGraphModule_post_init. cbv [mbind PyM_bind bind].
  destruct (super_post_init st) as [st' [e|[]]]; [reflexivity|].
  unfold load_global. rewrite bool_decide_false by exact H. reflexivity.
Qed.

(** Converting a [LIFNeuronWithSynsRealValue] that has no [dt] raises a
    [ValueError] naming the module's type and the target class, and
    leaves the graph untouched. *)
Theorem convert_from_lif_without_dt rm globals cls mdl m st :
  modules st !! mdl = Some m ->
  "LIFNeuronWithSynsRealValue" ∈ globals ->
  isinstance_mod m cls = false ->
  isinstance_mod m ["LIFNeuronWithSynsRealValue"] = true ->
  dt m = None ->
  _convert_from rm globals cls mdl st =
    (st, inl (ValueError ("Graph module of type " ++ type_name m
       ++ " has no `dt` set, so cannot convert time constants when converting to "
       ++ cls_name cls ++ ".")%string)).
Proof.
  intros Hm Hg Hc Hl Hdt. unfold _convert_from. cbv [mbind PyM_bind bind].
  unfold get_module. rewrite Hm. cbv [mret PyM_ret ret]. rewrite Hc.
  unfold load_global. rewrite (bool_decide_true _ Hg). cbv [mret PyM_ret ret].
  rewrite Hl, Hdt. reflexivity.
Qed.

(** Without the name [np] (the notebook never imports numpy), the
    conversion rule never changes the graph: it returns the module itself
    or raises before [_factory] and [replace_module] are reached. *)
Theorem convert_from_without_np_keeps_graph rm globals cls mdl st :
  "np" ∉ globals ->
  fst (_convert_from rm globals cls mdl st) = st /\
  (forall r, snd (_convert_from rm globals cls mdl st) = inr r -> r = mdl).
Proof.
  intros Hnp. unfold _convert_from. cbv [mbind PyM_bind bind].
  unfold get_module. destruct (modules st !! mdl) as [m|]; [|split; [done|discriminate]].
  cbv [mret PyM_ret ret]. destruct (isinstance_mod m cls); [split; [done|intros r Hr; cbn in Hr; congruence]|].
  unfold load_global. case_bool_decide; cbv [mret PyM_ret ret raise];
    [|split; [done|discriminate]].
  destruct (isinstance_mod m ["LIFNeuronWithSynsRealValue"]);
    [|split; [done|discriminate]].
  destruct (dt m); [|split; [done|discriminate]].
  rewrite bool_decide_false by exact Hnp. split; [done|discriminate].
Qed.

(** [np.round] is exact rounding to a nearest integer, ties to even. *)
Lemma round_half_even_nearest (q : Q) :
  (Z.abs (2 * Qnum q - 2 * round_half_even q * Zpos (Qden q)) <= Zpos (Qden q))%Z /\
  (Z.abs (2 * Qnum q - 2 * round_half_even q * Zpos (Qden q)) = Zpos (Qden q) ->
   Z.even (round_half_even q) = true).
Proof.
  unfold round_half_even. destruct q as [a b]. cbn [Qnum Qden].
  assert (Hb : (0 < Z.pos b)%Z) by lia.
  pose proof (Z.div_mod a (Z.pos b) ltac:(lia)) as Hdm.
  pose proof (Z.mod_pos_bound a (Z.pos b) Hb) as Hr.
  set (f := (a / Z.pos b)%Z) in *. set (r := (a mod Z.pos b)%Z) in *.
  destruct (Z.compare_spec (2 * r) (Z.pos b)) as [Heq|Hlt|Hgt].
  - destruct (Z.even f) eqn:Ef.
    + split; [nia|]. intros _. exact Ef.
    + split; [nia|]. intros _. rewrite Z.even_add, Ef. reflexivity.
  - split; [nia|]. intros H. nia.
  - split; [nia|]. intros H. nia.
Qed.

(** The example network passes the output rule. *)
Lemma output_rule_check_witness :
  let st := example_store [1] [0] in
  let nr := fun (_ : Store) (_ : nat) => "GraphNode"%string in
  let mr := fun (_ : Store) (_ : nat) => "GraphModule"%string in
  (dr_body (output_nodes_have_neurons_as_source nr mr) (st, example_graph) = inr tt <->
   (forall n nd s sm, n ∈ output_nodes example_graph -> nodes st !! n = Some nd ->
      s ∈ source_modules nd -> modules st !! s = Some sm ->
      isinstance_mod sm GenericNeurons = true)) /\
  (forall e, dr_body (output_nodes_have_neurons_as_source nr mr) (st, example_graph) = inl e ->
   isinstance e "DRCError" = true).
Proof.
  intros st nr mr. apply (output_rule_check nr mr st example_graph). vm_compute. reflexivity.
Defined.

(** The weights 0 as a second source of output node 11 are reported. *)
Lemma output_rule_first_offender_witness :
  dr_body (output_nodes_have_neurons_as_source (fun _ n => pretty (N.of_nat n))
             (fun _ _ => "LinearWeights"%string))
          (example_store [1; 0] [0], example_graph) =
    inl (DRCError ("All network outputs must be directly from neurons." ++ nl
           ++ "A network output node 11 has a source LinearWeights which is not a neuron.")%string).
Proof.
  etransitivity.
  { apply (output_rule_first_offender (fun _ n => pretty (N.of_nat n))
           (fun _ _ => "LinearWeights"%string) (example_store [1; 0] [0]) example_graph
           [] 11 [] (MkNode [1; 0] []) [1] 0 []
           (MkModule LinearWeights [10] [] "weights" None [] [])).
    - reflexivity.
    - constructor.
    - reflexivity.
    - reflexivity.
    - constructor; [eexists; split; reflexivity|constructor].
    - reflexivity.
    - reflexivity. }
  vm_compute. reflexivity.
Defined.

(** The example network passes the input rule. *)
Lemma input_rule_check_witness :
  let st := example_store [1] [0] in
  let nr := fun (_ : Store) (_ : nat) => "GraphNode"%string in
  let mr := fun (_ : Store) (_ : nat) => "GraphModule"%string in
  (dr_body (first_module_is_a_weight nr mr) (st, example_graph) = inr tt <->
   (forall n nd s sm, n ∈ input_nodes example_graph -> nodes st !! n = Some nd ->
      s ∈ sink_modules nd -> modules st !! s = Some sm ->
      isinstance_mod sm LinearWeights = true)) /\
  (forall e, dr_body (first_module_is_a_weight nr mr) (st, example_graph) = inl e ->
   isinstance e "DRCError" = true).
Proof.
  intros st nr mr. apply (input_rule_check nr mr st example_graph). vm_compute. reflexivity.
Defined.

(** The neurons 1 as a second sink of input node 10 are reported. *)
Lemma input_rule_first_offender_witness :
  dr_body (first_module_is_a_weight (fun _ n => pretty (N.of_nat n))
             (fun _ _ => "MyNeurons"%string))
          (example_store [1] [0; 1], example_graph) =
    inl (DRCError ("The network input must go first through a weight." ++ nl
           ++ "A network input node 10 has a sink module MyNeurons which is not a LinearWeight.")%string).
Proof.
  etransitivity.
  { apply (input_rule_first_offender (fun _ n => pretty (N.of_nat n))
           (fun _ _ => "MyNeurons"%string) (example_store [1] [0; 1]) example_graph
           [] 10 [] (MkNode [] [0; 1]) [0] 1 []
           (MkModule MyNeurons [] [11] "neurons" None [] [])).
    - reflexivity.
    - constructor.
    - reflexivity.
    - reflexivity.
    - constructor; [eexists; split; reflexivity|constructor].
    - reflexivity.
    - reflexivity. }
  vm_compute. reflexivity.
Defined.

(** [check_drc] with [xylo_drc] on the example network with the weights
    as a second source of the output node. *)
Lemma xylo_drc_outcome_witness :
  let st := example_store [1; 0] [0] in
  let nr := fun (_ : Store) (_ : nat) => "GraphNode"%string in
  let mr := fun (_ : Store) (_ : nat) => "GraphModule"%string in
  (snd (check_drc (st, example_graph) (xylo_drc nr mr) []) = inr tt <->
   (forall n nd s sm, n ∈ output_nodes example_graph -> nodes st !! n = Some nd ->
      s ∈ source_modules nd -> modules st !! s = Some sm ->
      isinstance_mod sm GenericNeurons = true) /\
   (forall n nd s sm, n ∈ input_nodes example_graph -> nodes st !! n = Some nd ->
      s ∈ sink_modules nd -> modules st !! s = Some sm ->
      isinstance_mod sm LinearWeights = true) /\
   (length (input_nodes example_graph) <= 16)%nat) /\
  (forall e, snd (check_drc (st, example_graph) (xylo_drc nr mr) []) = inl e ->
   exists dr e0, dr ∈ xylo_drc nr mr /\ dr_body dr (st, example_graph) = inl e0 /\
     isinstance e0 "DRCError" = true /\
     e = MkExc DRCError_mro [drc_message (dr_name dr) (exc_args e0)] (Some e0)).
Proof.
  intros st nr mr. apply (xylo_drc_outcome nr mr st example_graph []).
  - vm_compute. reflexivity.
  - vm_compute. reflexivity.
Defined.

(** The notebook's globals: building a [MyGraphModule] fails. *)
Lemma post_init_name_error_witness :
  MyGraphModule_post_init (mret tt) notebook_globals (fun _ => 0%Q) (example_store [1] [0])
  = (example_store [1] [0], inl (NameError "param1")).
Proof.
  etransitivity.
  - apply (post_init_name_error (mret tt) notebook_globals (fun _ => 0%Q)
             (example_store [1] [0])). apply (bool_decide_unpack _). vm_compute. exact I.
  - reflexivity.
Defined.

(** A LIF module without [dt], converted to [MyNeurons] once the name
    [LIFNeuronWithSynsRealValue] is bound. *)
Lemma convert_from_lif_without_dt_witness :
  _convert_from (fun _ _ => mret tt) ("LIFNeuronWithSynsRealValue" :: notebook_globals)
    MyNeurons 0 (lif_store None)
  = (lif_store None,
     inl (ValueError "Graph module of type LIFNeuronWithSynsRealValue has no `dt` set, so cannot convert time constants when converting to MyNeurons.")).
Proof.
  apply (convert_from_lif_without_dt (fun _ _ => mret tt)
           ("LIFNeuronWithSynsRealValue" :: notebook_globals) MyNeurons 0
           (MkModule ["LIFNeuronWithSynsRealValue"; "GenericNeurons"; "GraphModule"; "object"]
              [1] [2] "lif" None [1 # 2; 3 # 2] [])
           (lif_store None)).
  - reflexivity.
  - left.
  - reflexivity.
  - reflexivity.
  - reflexivity.
Defined.

(** A LIF module with [dt] set: the conversion stops at [np]. *)
Lemma convert_from_without_np_keeps_graph_witness :
  let rm := fun _ _ : nat => (mret tt : PyM Store unit) in
  let globals := "LIFNeuronWithSynsRealValue" :: notebook_globals in
  fst (_convert_from rm globals MyNeurons 0 (lif_store (Some 1%Q))) = lif_store (Some 1%Q) /\
  (forall r, snd (_convert_from rm globals MyNeurons 0 (lif_store (Some 1%Q))) = inr r -> r = 0%nat).
Proof.
  intros rm globals. apply (convert_from_without_np_keeps_graph rm globals MyNeurons 0
                              (lif_store (Some 1%Q))).
  apply (bool_decide_unpack _). vm_compute. exact I.
Defined.

(** The threshold conversion [np.round(x).astype(int)] of [_convert_from]:
    for a threshold [q = a/b] within the int64 range, the cast does not
    overflow, and the result [r] is a nearest integer ([|q - r| <= 1/2],
    that is [|2a - 2rb| <= b]), the even one on a tie. *)
Theorem np_round_astype_int_nearest (q : Q) :
  (inject_Z int64_min <= q)%Q -> (q <= inject_Z int64_max)%Q ->
  np_round_astype_int q = round_half_even q /\
  (Z.abs (2 * Qnum q - 2 * np_round_astype_int q * Zpos (Qden q)) <= Zpos (Qden q))%Z /\
  (Z.abs (2 * Qnum q - 2 * np_round_astype_int q * Zpos (Qden q)) = Zpos (Qden q) ->
   Z.even (np_round_astype_int q) = true).
Proof.
  intros Hlo Hhi.
  destruct (round_half_even_nearest q) as [Hn Ht].
  assert (Hin : (int64_min <= round_half_even q <= int64_max)%Z).
  { destruct q as [a b]. unfold Qle in Hlo, Hhi. cbn [Qnum Qden inject_Z] in *.
    unfold int64_min, int64_max in *. rewrite Z.mul_1_r in Hlo, Hhi.
    set (r := round_half_even (a # b)) in *.
    assert (Hb : (0 < Z.pos b)%Z) by lia.
    split.
    - apply Z.lt_pred_le. apply (Z.mul_lt_mono_pos_r (2 * Z.pos b)); [lia|]. nia.
    - apply Z.lt_succ_r. apply (Z.mul_lt_mono_pos_r (2 * Z.pos b)); [lia|]. nia. }
  assert (He : np_round_astype_int q = round_half_even q).
  { unfold np_round_astype_int, astype_int64.
    destruct Hin as [H1 H2]. apply Z.leb_le in H1, H2. by rewrite H1, H2. }
  rewrite He. auto.
Qed.

(** A tie ([5/2] rounds to [2]) and the most negative int64. *)
Lemma np_round_astype_int_nearest_witness :
  (np_round_astype_int (5 # 2) = round_half_even (5 # 2) /\
   (Z.abs (2 * Qnum (5 # 2) - 2 * np_round_astype_int (5 # 2) * Zpos (Qden (5 # 2)))
      <= Zpos (Qden (5 # 2)))%Z /\
   (Z.abs (2 * Qnum (5 # 2) - 2 * np_round_astype_int (5 # 2) * Zpos (Qden (5 # 2)))
      = Zpos (Qden (5 # 2)) -> Z.even (np_round_astype_int (5 # 2)) = true)) /\
  np_round_astype_int (inject_Z int64_min) = int64_min.
Proof.
  split.
  - apply np_round_astype_int_nearest; vm_compute; discriminate.
  - apply (proj1 (np_round_astype_int_nearest (inject_Z int64_min)
                    ltac:(vm_compute; discriminate) ltac:(vm_compute; discriminate))).
Defined.

End GraphRulesFacts.

Module FunctionalFacts.
Import Functional.

#[local] Instance singleton_path_inj : Inj (=) (=) (fun k : string => [k]).
Proof. by intros ?? [= ->]. Qed.

#[local] Instance cons_path_inj (n : string) : Inj (=) (=) (@cons string n).
Proof. by intros ?? [= ->]. Qed.

Lemma lookup_kmap_singleton_path {A} (m : gmap string A) (p : list string) :
  (kmap (fun k => [k]) m : gmap (list string) A) !! p = match p with [k] => m !! k | _ => None end.
Proof.
  destruct p as [|k [|k' q]].
  - apply lookup_kmap_None; [apply _|]. by intros ? [=].
  - apply (lookup_kmap (fun k => [k])).
  - apply lookup_kmap_None; [apply _|]. by intros ? [=].
Qed.

Lemma lookup_kmap_cons_path {A} (n : string) (m : gmap (list string) A) (p : list string) :
  (kmap (cons n) m : gmap (list string) A) !! p =
    match p with [] => None | n' :: q => if String.eqb n n' then m !! q else None end.
Proof.
  destruct p as [|n' q].
  - apply lookup_kmap_None; [apply _|]. by intros ? [=].
  - destruct (String.eqb_spec n n') as [<-|Hne].
    + apply (lookup_kmap (cons n)).
    + apply lookup_kmap_None; [apply _|]. intros ? [= ??]. congruence.
Qed.

Lemma attr_at_nil (u : JaxModule) : attr_at u [] = None.
Proof. by destruct u. Qed.

(** The flattened registry agrees with the lookup by dotted name. *)
Lemma attributes_lookup (u : JaxModule) (p : list string) :
  attributes u !! p = attr_at u p.
Proof.
  revert p. induction u as [c sh attrs subs IH] using JaxModule_ind'. intros p.
  cbn [attributes attr_at]. rewrite lookup_union, lookup_kmap_singleton_path.
  destruct p as [|n [|k' q]].
  - rewrite (left_id_L None union).
    induction IH as [|[n s] subs Hs IH' IHl]; [done|].
    cbn. rewrite lookup_union, lookup_kmap_cons_path, IHl. done.
  - destruct (attrs !! n) eqn:E.
    + by rewrite union_Some_l.
    + rewrite (left_id_L None union).
      induction IH as [|[n' s] subs Hs IH' IHl]; [done|].
      cbn. rewrite lookup_union, lookup_kmap_cons_path, IHl.
      cbn in Hs. destruct (String.eqb n' n); [|done].
      by rewrite Hs, attr_at_nil.
  - rewrite (left_id_L None union).
    induction IH as [|[n' s] subs Hs IH' IHl]; [done|].
    cbn. rewrite lookup_union, lookup_kmap_cons_path, IHl.
    cbn in Hs. rewrite String.eqb_sym.
    destruct (String.eqb n n'); [|rewrite (left_id_L None union); reflexivity].
    rewrite Hs. destruct (attr_at s (k' :: q));
      [apply union_Some_l | rewrite (left_id_L None union); reflexivity].
Qed.

(** What [overlay] does at one dotted name. *)
Lemma attr_at_overlay (u : JaxModule) (look : list string -> option value)
    (p : list string) :
  attr_at (overlay u look) p = (fun a => set_value a (look p)) <$> attr_at u p.
Proof.
  revert look p. induction u as [c sh attrs subs IH] using JaxModule_ind'.
  intros look p. destruct p as [|n [|k' q]]; [done| |].
  - cbn. by rewrite map_lookup_imap; destruct (attrs !! n).
  - cbn [overlay attr_at].
    induction IH as [|[n' s] subs Hs IH' IHl]; [done|].
    cbn. cbn in Hs. rewrite Hs.
    destruct (String.eqb_spec n n') as [<-|Hne].
    + by destruct (attr_at s (k' :: q)).
    + exact IHl.
Qed.

Lemma check_entries_ok (u : JaxModule) (l : list (list string * value)) :
  (forall p v, (p, v) ∈ l -> check_entry u p v = inr tt) ->
  check_entries u l = inr tt.
Proof.
  induction l as [|[p v] l IH]; intros H; [done|]. cbn.
  rewrite (H p v); [|by left]. apply IH. intros p' v' Hin. apply H. by right.
Qed.

(** A bundle of declared names with matching shapes is accepted. *)
Lemma set_attributes_valid (u : JaxModule) (b : gmap (list string) value) :
  (forall p v, b !! p = Some v ->
     exists a, attr_at u p = Some a /\ value_shape (a_value a) = value_shape v) ->
  set_attributes u b = inr (overlay u (fun p => b !! p)).
Proof.
  intros Hb. unfold set_attributes. rewrite check_entries_ok; [done|].
  intros p v Hin. apply elem_of_map_to_list in Hin.
  destruct (Hb p v Hin) as (a & Ha & Hsh). unfold check_entry. rewrite Ha.
  by rewrite decide_True.
Qed.

Lemma family_lookup (fam : family) (u : JaxModule) (p : list string) :
  omap (select fam) (attributes u) !! p = attr_at u p ≫= select fam.
Proof. by rewrite lookup_omap, attributes_lookup. Qed.

(** A valid bundle: the new module at a fresh address, the old one kept,
    and the new [state()]. *)
Lemma set_attributes_state_valid (h : Heap) (l : nat) (u : JaxModule)
    (b : gmap (list string) value) :
  objs h !! l = Some u ->
  (forall p v, b !! p = Some v ->
     exists a, attr_at u p = Some a /\ value_shape (a_value a) = value_shape v) ->
  exists l' v,
    call_set_attributes l b h = (MkHeap (<[l' := v]> (objs h)) (np_random_state h), inr l') /\
    l' <> l /\
    (<[l' := v]> (objs h)) !! l = Some u /\
    state v = filter (fun pv => is_Some (state u !! pv.1)) b ∪ state u.
Proof.
  intros Hl Hb.
  exists (fresh (dom (objs h))), (overlay u (fun p => b !! p)).
  assert (Hne : fresh (dom (objs h)) <> l).
  { intros Heq. apply (is_fresh (dom (objs h))). rewrite Heq.
    apply elem_of_dom. by eexists. }
  split; [|split; [exact Hne|split]].
  - unfold call_set_attributes. py_unfold. unfold get_obj. rewrite Hl. cbn.
    unfold lift. rewrite (set_attributes_valid u b Hb). reflexivity.
  - by rewrite lookup_insert_ne.
  - apply map_eq. intros p. unfold state.
    rewrite lookup_union, map_lookup_filter, !family_lookup, attr_at_overlay.
    destruct (attr_at u p) as [a|] eqn:Ha; cbn.
    + destruct (b !! p) as [v|]; cbn.
      * change ((p, v).1) with p. rewrite family_lookup, Ha. cbn. unfold select.
        destruct (decide (a_family a = FState)); cbn.
        -- rewrite option_guard_True by (eexists; reflexivity).
           case_decide; [reflexivity|contradiction].
        -- rewrite option_guard_False by (intros [? ?]; discriminate).
           case_decide; [contradiction|reflexivity].
      * unfold select. destruct (decide (a_family a = FState)); cbn; by destruct a.
    + destruct (b !! p) as [v|]; cbn; [|done].
      change ((p, v).1) with p. rewrite family_lookup, Ha. cbn.
      rewrite option_guard_False by (intros [? ?]; discriminate). reflexivity.
Qed.

Lemma check_entries_mismatch (u : JaxModule) (l : list (list string * value)) :
  (forall p v, (p, v) ∈ l -> is_Some (attr_at u p)) ->
  (exists p v a, (p, v) ∈ l /\ attr_at u p = Some a /\
                 value_shape (a_value a) <> value_shape v) ->
  exists p v a, (p, v) ∈ l /\ attr_at u p = Some a /\
    value_shape (a_value a) <> value_shape v /\
    check_entries u l = inl (ShapeMismatchError p).
Proof.
  induction l as [|[p v] l IH]; intros Hdecl Hbad.
  { destruct Hbad as (? & ? & ? & Hin & _). by apply elem_of_nil in Hin. }
  destruct (Hdecl p v ltac:(left)) as [a Ha].
  cbn [check_entries]. unfold check_entry. rewrite Ha.
  destruct (decide (value_shape (a_value a) = value_shape v)) as [Heq|Hne].
  - assert (Hbad' : exists p' v' a', (p', v') ∈ l /\ attr_at u p' = Some a' /\
                       value_shape (a_value a') <> value_shape v').
    { destruct Hbad as (p' & v' & a' & Hin' & Ha' & Hne').
      apply elem_of_cons in Hin' as [[= -> ->]|Hin'].
      - rewrite Ha in Ha'. injection Ha' as <-. contradiction.
      - exists p', v', a'. auto. }
    assert (Hdecl' : forall p' v', (p', v') ∈ l -> is_Some (attr_at u p')).
    { intros p' v' Hin'. apply (Hdecl p' v'). by right. }
    destruct (IH Hdecl' Hbad') as (p' & v' & a' & Hin' & Ha' & Hne' & He).
    exists p', v', a'. split; [by right|]. auto.
  - exists p, v, a. split; [left|]. auto.
Qed.

(** C3 (amended, spec-modelled [set_attributes]). For a bundle whose
    names are all declared by the module at [l] and whose values have the
    declared shapes, [set_attributes] stores a new module at a fresh
    address and leaves the old one in place; the new module's [state()]
    is the bundle restricted to the old module's state names, merged over
    the old [state()]. For a bundle whose names are all declared but where
    some value has a shape other than the declared one, it raises a
    [ShapeMismatchError] for such a name and leaves the heap as it was. *)
Theorem set_attributes_state (h : Heap) (l : nat) (u : JaxModule)
    (b : gmap (list string) value) :
  objs h !! l = Some u ->
  ((forall p v, b !! p = Some v ->
      exists a, attr_at u p = Some a /\ value_shape (a_value a) = value_shape v) ->
   exists l' v,
     call_set_attributes l b h = (MkHeap (<[l' := v]> (objs h)) (np_random_state h), inr l') /\
     l' <> l /\
     (<[l' := v]> (objs h)) !! l = Some u /\
     state v = filter (fun pv => is_Some (state u !! pv.1)) b ∪ state u) /\
  ((forall p v, b !! p = Some v -> is_Some (attr_at u p)) ->
   (exists p v a, b !! p = Some v /\ attr_at u p = Some a /\
                  value_shape (a_value a) <> value_shape v) ->
   exists p v a, b !! p = Some v /\ attr_at u p = Some a /\
     value_shape (a_value a) <> value_shape v /\
     call_set_attributes l b h = (h, inl (ShapeMismatchError p))).
Proof.
  intros Hl. split; [by apply set_attributes_state_valid|].
  intros Hdecl Hbad.
  destruct (check_entries_mismatch u (map_to_list b)) as (p & v & a & Hin & Ha & Hne & He).
  - intros p v Hin. apply elem_of_map_to_list in Hin. by apply (Hdecl p v).
  - destruct Hbad as (p & v & a & Hp & Ha & Hne). exists p, v, a.
    split; [by apply elem_of_map_to_list|]. auto.
  - exists p, v, a. split; [by apply elem_of_map_to_list|]. split; [done|]. split; [done|].
    unfold call_set_attributes. py_unfold. unfold get_obj. rewrite Hl. cbn.
    unfold lift, set_attributes. rewrite He. reflexivity.
Qed.

(** C3 as stated fails: overlaying the notebook's [params] bundle (a
    parameter name) leaves [state()] without that name, so it is not the
    bundle merged over [state()]; and a declared name with a value of the
    wrong shape is refused. *)
Lemma set_attributes_state_not_union :
  (exists v, set_attributes rate_mod {[ ["tau"] := VArr [12; 12; 12]%Z ]} = inr v /\
     state v <> {[ ["tau"] := VArr [12; 12; 12]%Z ]} ∪ state rate_mod) /\
  set_attributes rate_mod {[ ["neur_state"] := VArr [1; 2]%Z ]}
    = inl (ShapeMismatchError ["neur_state"]).
Proof.
  split; [|vm_compute; reflexivity].
  eexists. split; [vm_compute; reflexivity|].
  intros H. apply (f_equal (lookup ["tau"])) in H. vm_compute in H. discriminate.
Qed.

Lemma reset_attr_idem (a : Attr) : reset_attr (reset_attr a) = reset_attr a.
Proof. by destruct a as [[] v i]. Qed.

Lemma attr_at_reset (u : JaxModule) (p : list string) :
  attr_at (reset_state u) p = reset_attr <$> attr_at u p.
Proof.
  revert p. induction u as [c sh attrs subs IH] using JaxModule_ind'.
  intros p. destruct p as [|n [|k' q]]; [done| |].
  - cbn [reset_state attr_at]. by rewrite lookup_fmap.
  - cbn [reset_state attr_at].
    induction IH as [|[n' s] subs Hs IH' IHl]; [done|].
    cbn. cbn in Hs. rewrite Hs.
    destruct (String.eqb_spec n n') as [<-|Hne].
    + by destruct (attr_at s (k' :: q)).
    + exact IHl.
Qed.

(** C7 (spec-modelled [reset_state]). Resetting twice is resetting once;
    the parameters and simulation parameters are untouched, and the state
    bundle is the declared initial values of the state attributes. *)
Theorem reset_state_idempotent (u : JaxModule) :
  reset_state (reset_state u) = reset_state u /\
  parameters (reset_state u) = parameters u /\
  simulation_parameters (reset_state u) = simulation_parameters u /\
  state (reset_state u)
    = omap (fun a => if decide (a_family a = FState) then Some (a_init a) else None)
           (attributes u).
Proof.
  split; [|split; [|split]].
  - induction u as [c sh attrs subs IH] using JaxModule_ind'. cbn [reset_state]. f_equal.
    + rewrite <- map_fmap_compose. apply map_fmap_ext. intros i x _. apply reset_attr_idem.
    + rewrite List.map_map.
      induction IH as [|[n s] subs Hs IH' IHl]; [done|]. cbn. cbn in Hs. rewrite Hs.
      f_equal. exact IHl.
  - apply map_eq. intros p. unfold parameters. rewrite !family_lookup, attr_at_reset.
    by destruct (attr_at u p) as [[[] v i]|].
  - apply map_eq. intros p. unfold simulation_parameters. rewrite !family_lookup, attr_at_reset.
    by destruct (attr_at u p) as [[[] v i]|].
  - apply map_eq. intros p. unfold state.
    rewrite family_lookup, lookup_omap, attributes_lookup, attr_at_reset.
    by destruct (attr_at u p) as [[[] v i]|].
Qed.

Lemma treedef_overlay (w : JaxModule) (look : list string -> option value) :
  treedef (overlay w look) = treedef w.
Proof.
  revert look. induction w as [c sh attrs subs IH] using JaxModule_ind'. intros look.
  cbn [overlay treedef]. f_equal. rewrite List.map_map.
  induction IH as [|[n s] subs Hs IH' IHl]; [done|]. cbn. cbn in Hs. rewrite Hs.
  f_equal. exact IHl.
Qed.

Lemma treedef_rebuild (ctor : string -> list nat -> gmap string Attr) (u : JaxModule) :
  treedef (rebuild ctor (treedef u)) = treedef u.
Proof.
  induction u as [c sh attrs subs IH] using JaxModule_ind'.
  cbn [rebuild treedef]. f_equal. rewrite !List.map_map.
  induction IH as [|[n s] subs Hs IH' IHl]; [done|]. cbn. cbn in Hs. rewrite Hs.
  f_equal. exact IHl.
Qed.

Lemma rebuild_skel (ctor : string -> list nat -> gmap string Attr) (u : JaxModule) :
  ctor_matches ctor u ->
  forall p, skel <$> attr_at (rebuild ctor (treedef u)) p = skel <$> attr_at u p.
Proof.
  induction u as [c sh attrs subs IH] using JaxModule_ind'.
  intros [Hc Hsubs] p. destruct p as [|n [|k' q]]; [done| |].
  - cbn [rebuild treedef attr_at]. by rewrite <- !lookup_fmap, Hc.
  - cbn [rebuild treedef attr_at]. rewrite List.map_map. revert Hsubs.
    induction IH as [|[n' s] subs Hs IH' IHl]; intros Hsubs; [done|].
    destruct Hsubs as [Hs' Hrest]. cbn in Hs. specialize (Hs Hs' (k' :: q)). cbn.
    destruct (String.eqb n n'); [|exact (IHl Hrest)].
    destruct (attr_at (rebuild ctor (treedef s)) (k' :: q)) eqn:E1,
             (attr_at s (k' :: q)) eqn:E2; try discriminate Hs; [exact Hs|].
    exact (IHl Hrest).
Qed.

Lemma overlay_skel (w : JaxModule) (look : list string -> option value) :
  (forall p v, look p = Some v ->
     exists a, attr_at w p = Some a /\ value_shape (a_value a) = value_shape v) ->
  forall p, skel <$> attr_at (overlay w look) p = skel <$> attr_at w p.
Proof.
  intros H p. rewrite attr_at_overlay.
  destruct (attr_at w p) as [a|] eqn:E; [|done]. cbn. f_equal.
  unfold skel, set_value. destruct (look p) as [v|] eqn:L; [|done].
  destruct (H p v L) as (a' & E' & Hsh). rewrite E in E'. injection E' as <-.
  cbn. by rewrite Hsh.
Qed.

Lemma family_fits (u w : JaxModule) (fam : family) :
  (forall p, skel <$> attr_at w p = skel <$> attr_at u p) ->
  forall p v, omap (select fam) (attributes u) !! p = Some v ->
    exists a, attr_at w p = Some a /\ value_shape (a_value a) = value_shape v.
Proof.
  intros Hsk p v H. rewrite family_lookup in H. specialize (Hsk p).
  destruct (attr_at u p) as [a|]; [|discriminate]. cbn in H. unfold select in H.
  case_decide; [|discriminate]. injection H as <-.
  destruct (attr_at w p) as [a'|]; [|discriminate].
  exists a'. split; [done|]. cbn in Hsk. unfold skel in Hsk. congruence.
Qed.

(** C4 (spec-modelled [tree_flatten]/[tree_unflatten]). When [__init__],
    called with only the class and shape, declares at every module of the
    tree the same names with the same families and shapes, unflattening the
    flattened module succeeds and reproduces every parameter, state and
    simulation-parameter value and the class/shape/sub-module structure. *)
Theorem tree_unflatten_flatten (ctor : string -> list nat -> gmap string Attr)
    (u : JaxModule) :
  ctor_matches ctor u ->
  exists v, tree_unflatten ctor (tree_flatten u).2 (tree_flatten u).1 = inr v /\
    parameters v = parameters u /\ state v = state u /\
    simulation_parameters v = simulation_parameters u /\ treedef v = treedef u.
Proof.
  intros Hm.
  pose proof (rebuild_skel ctor u Hm) as Hr.
  set (r := rebuild ctor (treedef u)) in *.
  set (v1 := overlay r (fun p => parameters u !! p)).
  set (v2 := overlay v1 (fun p => state u !! p)).
  set (v3 := overlay v2 (fun p => simulation_parameters u !! p)).
  assert (Hv1 : forall p, skel <$> attr_at v1 p = skel <$> attr_at u p).
  { intros p. rewrite <- Hr. apply overlay_skel. apply family_fits. exact Hr. }
  assert (Hv2 : forall p, skel <$> attr_at v2 p = skel <$> attr_at u p).
  { intros p. rewrite <- Hv1. apply overlay_skel. apply family_fits. exact Hv1. }
  exists v3. unfold tree_unflatten, tree_flatten. cbn [fst snd].
  rewrite (set_attributes_valid r) by (apply family_fits; exact Hr). fold v1.
  rewrite (set_attributes_valid v1) by (apply family_fits; exact Hv1). fold v2.
  rewrite (set_attributes_valid v2) by (apply family_fits; exact Hv2). fold v3.
  assert (Hval : forall fam p, attr_at v3 p ≫= select fam = attr_at u p ≫= select fam).
  { intros fam p. unfold v3, v2, v1. rewrite !attr_at_overlay.
    unfold parameters, state, simulation_parameters. rewrite !family_lookup.
    specialize (Hr p).
    destruct (attr_at u p) as [[f x i]|], (attr_at r p) as [[f' x' i']|];
      try discriminate Hr; [|reflexivity].
    cbn in Hr. unfold skel in Hr. cbn in Hr. injection Hr as -> _.
    destruct f, fam; reflexivity. }
  split; [reflexivity|]. split; [|split; [|split]].
  - apply map_eq. intros p. unfold parameters. rewrite !family_lookup. apply Hval.
  - apply map_eq. intros p. unfold state. rewrite !family_lookup. apply Hval.
  - apply map_eq. intros p. unfold simulation_parameters. rewrite !family_lookup. apply Hval.
  - unfold v3, v2, v1. rewrite !treedef_overlay. apply treedef_rebuild.
Qed.

(** The notebook's module at address 0, given a new [neur_state]. *)
Lemma set_attributes_state_witness :
  let h := MkHeap {[0 := rate_mod]} 0 in
  let b : gmap (list string) value := {[ ["neur_state"] := VArr [1; 2; 3]%Z ]} in
  let b' : gmap (list string) value :=
    {[ ["neur_state"] := VArr [1; 2]%Z; ["tau"] := VArr [5; 5; 5]%Z ]} in
  (exists l' v,
    call_set_attributes 0 b h = (MkHeap (<[l' := v]> (objs h)) (np_random_state h), inr l') /\
    l' <> 0 /\
    (<[l' := v]> (objs h)) !! 0 = Some rate_mod /\
    state v = filter (fun pv => is_Some (state rate_mod !! pv.1)) b ∪ state rate_mod) /\
  (exists p v a, b' !! p = Some v /\ attr_at rate_mod p = Some a /\
     value_shape (a_value a) <> value_shape v /\
     call_set_attributes 0 b' h = (h, inl (ShapeMismatchError p))).
Proof.
  intros h b b'. split.
  - apply (proj1 (set_attributes_state h 0 rate_mod b eq_refl)).
    intros p v Hp. apply lookup_singleton_Some in Hp as [<- <-].
    eexists. split; reflexivity.
  - apply (proj2 (set_attributes_state h 0 rate_mod b' eq_refl)).
    + intros p v Hp. apply lookup_insert_Some in Hp as [[<- <-]|[_ Hp]].
      * eexists. reflexivity.
      * apply lookup_singleton_Some in Hp as [<- <-]. eexists. reflexivity.
    + exists ["neur_state"], (VArr [1; 2]%Z), (MkAttr FState (VArr [0; 0; 0]%Z) (VArr [0; 0; 0]%Z)).
      split; [reflexivity|]. split; [reflexivity|]. discriminate.
Defined.

(** The notebook's [RateEulerJax] built by a shape-only constructor. *)
Lemma tree_unflatten_flatten_witness :
  ctor_matches rate_ctor rate_mod /\
  exists v, tree_unflatten rate_ctor (tree_flatten rate_mod).2 (tree_flatten rate_mod).1 = inr v /\
    parameters v = parameters rate_mod /\ state v = state rate_mod /\
    simulation_parameters v = simulation_parameters rate_mod /\
    treedef v = treedef rate_mod.
Proof.
  assert (H : ctor_matches rate_ctor rate_mod) by (split; [vm_compute; reflexivity|exact I]).
  split; [exact H|]. exact (tree_unflatten_flatten rate_ctor rate_mod H).
Defined.

End FunctionalFacts.
